(** * The pluggable authentication boundary of Aphex CMS

    A shallow embedding of the TypeScript listings of AUTH.md: the
    [AuthProvider] contract, the Better Auth adapter, the Clerk adapter and
    the sign-up hook that creates the CMS user profile; then the Clerk
    webhook, the API-key operations of the auth service, the client
    wrapper and the feature flag that picks the adapter.

    An [async] function is a computation over the state of the outside
    world (identity provider, database) that settles either fulfilled with
    a value or rejected with the thrown error. *)

From Stdlib Require Import ZArith.
From stdpp Require Import base option list strings gmap.

Set Warnings "-register-all".
Local Open Scope string_scope.

(** ** Thrown values and promises *)

Inductive exn :=
| Error (message : string)         (* [new Error(message)] *)
| ProviderError (detail : string). (* an error of the identity provider's or
                                      database client's own making *)

Definition Unauthorized : exn := Error "Unauthorized".
Definition Forbidden : exn := Error "Forbidden".

Inductive Settled (A : Type) :=
| Fulfilled (value : A)
| Rejected (reason : exn).
Arguments Fulfilled {A} value.
Arguments Rejected {A} reason.

Definition Async (W A : Type) : Type := W -> Settled A * W.

Definition resolve {W A} (a : A) : Async W A := fun w => (Fulfilled a, w).
Definition throw {W A} (e : exn) : Async W A := fun w => (Rejected e, w).
Definition await {W A B} (m : Async W A) (k : A -> Async W B) : Async W B :=
  fun w =>
    match m w with
    | (Fulfilled a, w') => k a w'
    | (Rejected e, w') => (Rejected e, w')
    end.

Notation "x <- m ;; k" := (await m (fun x => k))
  (at level 100, m at next level, right associativity, only parsing).

(** ** JavaScript values, as far as the listings build them

    An object literal is the finite map of its own properties. *)
Inductive jsval :=
| JUndefined
| JString (s : string)
| JDate (ms : Z)
| JArray (items : list jsval)
| JObject (props : gmap string jsval).

Definition js_string_or_undefined (v : option string) : jsval :=
  match v with
  | Some s => JString s
  | None => JUndefined
  end.

(** [o.name], for reading a property back. *)
Definition js_prop (o : jsval) (name : string) : option jsval :=
  match o with
  | JObject props => props !! name
  | _ => None
  end.

(** ** Values of the contract ([packages/cms-core/src/types.ts]) *)

Inductive Permission := read | write.

#[global] Instance Permission_eq_dec : EqDecision Permission.
Proof. solve_decision. Defined.

Definition Permission_string (p : Permission) : string :=
  match p with read => "read" | write => "write" end.

Module SessionAuth.
Record user_t := {
  user_id : string;
  user_email : string;
  user_name : option string;   (* [name?: string] *)
  user_image : option string   (* [image?: string] *)
}.
Record session_t := {
  session_id : string;
  session_expiresAt : Z        (* a [Date], as its time value in ms *)
}.
Record t := {
  type : string;
  user : user_t;
  session : session_t
}.

(** The object literal a [SessionAuth] stands for, property by property
    (AUTH.md 397-409 and 550-562). *)
Definition to_js (a : t) : jsval :=
  JObject {[
    "type" := JString (type a);
    "user" := JObject {[
      "id" := JString (user_id (user a));
      "email" := JString (user_email (user a));
      "name" := js_string_or_undefined (user_name (user a));
      "image" := js_string_or_undefined (user_image (user a)) ]};
    "session" := JObject {[
      "id" := JString (session_id (session a));
      "expiresAt" := JDate (session_expiresAt (session a)) ]} ]}.
End SessionAuth.

Module ApiKeyAuth.
Record t := {
  type : string;
  keyId : string;
  name : string;
  permissions : list Permission;
  lastUsedAt : option Z        (* [lastUsedAt?: Date] *)
}.

(** The object literal an [ApiKeyAuth] stands for (AUTH.md 419-424 and
    582-587); [lastUsedAt] is a property only when it is set. *)
Definition to_js (a : t) : jsval :=
  let props : gmap string jsval := {[
    "type" := JString (type a);
    "keyId" := JString (keyId a);
    "name" := JString (name a);
    "permissions" :=
      JArray ((fun p => JString (Permission_string p)) <$> permissions a) ]} in
  JObject match lastUsedAt a with
          | Some d => <["lastUsedAt" := JDate d]> props
          | None => props
          end.
End ApiKeyAuth.

(** The interface itself: four operations on a request. *)
Record Request := { headers : gmap string string }.

Record AuthProvider (W : Type) := {
  AuthProvider_getSession : Request -> Async W (option SessionAuth.t);
  AuthProvider_requireSession : Request -> Async W SessionAuth.t;
  AuthProvider_validateApiKey : Request -> Async W (option ApiKeyAuth.t);
  AuthProvider_requireApiKey :
    Request -> option Permission -> Async W ApiKeyAuth.t
}.

(** [request.headers.get(name)]: the [Headers] object keeps one combined
    value per lower-cased name and answers [null] for a missing one. *)
Definition Headers_get (h : gmap string string) (name : string)
  : option string := h !! name.

(** JavaScript truthiness of a [string | null]: [null] and [''] are falsy. *)
Definition truthy (v : option string) : bool :=
  match v with
  | None => false
  | Some s => negb (bool_decide (s = ""))
  end.

(** [array.includes(p)] on a permission array. *)
Definition includes (l : list Permission) (p : Permission) : bool :=
  bool_decide (p ∈ l).

(** ** The mandatory variants (AUTH.md 565-569 and 590-598)

    Both are written against [this] alone: [this.getSession] and
    [this.validateApiKey] are the only things they use of the adapter they
    sit in. *)
Module This.
Section Methods.
Context {W : Type}.
Variable this_getSession : Request -> Async W (option SessionAuth.t).
Variable this_validateApiKey : Request -> Async W (option ApiKeyAuth.t).

Definition requireSession (request : Request) : Async W SessionAuth.t :=
  session <- this_getSession request ;;
  match session with
  | None => throw Unauthorized
  | Some session => resolve session
  end.

Definition requireApiKey (request : Request) (permission : option Permission)
  : Async W ApiKeyAuth.t :=
  apiKey <- this_validateApiKey request ;;
  match apiKey with
  | None => throw Unauthorized
  | Some apiKey =>
      match permission with
      | Some p =>
          if negb (includes (ApiKeyAuth.permissions apiKey) p)
          then throw Forbidden
          else resolve apiKey
      | None => resolve apiKey
      end
  end.
End Methods.
End This.

(** ** The CMS database as the listings touch it (Drizzle statements)

    [cms_user_profiles] has [user_id] as its primary key; the journal keeps
    every statement handed to the database, in order. *)
Module Db.
Inductive Role := admin | editor | viewer.

Record userProfiles_row := {
  userId : string;
  role : option Role;
  preferences : option string   (* jsonb, as text *)
}.

Inductive Statement :=
| Insert_userProfiles (values : userProfiles_row)
| Select (table : string)
| Update (table : string)
| Delete (table : string).

Record t := {
  cms_user_profiles : list userProfiles_row;
  journal : list Statement
}.

(** [db.insert(userProfiles).values(values)]: one INSERT; a second row
    for the same [user_id] violates the primary key and is refused. *)
Definition insert_userProfiles (values : userProfiles_row) : Async t unit :=
  fun db =>
    let issued := (journal db ++ [Insert_userProfiles values])%list in
    if bool_decide (userId values ∈ userId <$> cms_user_profiles db)
    then (Rejected (ProviderError "unique_violation"),
          {| cms_user_profiles := cms_user_profiles db; journal := issued |})
    else (Fulfilled tt,
          {| cms_user_profiles := (cms_user_profiles db ++ [values])%list;
             journal := issued |}).

(** The statements a computation hands to the database from state [db]. *)
Definition issued {A} (m : Async t A) (db : t) : list Statement :=
  drop (length (journal db)) (journal (snd (m db))).
End Db.

(** ** Current implementation: Better Auth (AUTH.md 308-429) *)
Module BetterAuth.
(** Rows of [auth-schema.ts], with the columns the adapter is handed. *)
Record user_row := {
  user_id : string;
  user_name : option string;
  user_email : string;
  user_image : option string
}.
Record session_row := {
  session_id : string;
  session_expiresAt : Z;
  session_token : string;
  session_userId : option string
}.
Record apikey_row := {
  apikey_id : string;
  apikey_name : option string;
  apikey_userId : option string;
  apikey_permissions : option string;   (* [text('permissions')] *)
  apikey_metadata : option string
}.

(** What [auth.api.getSession] resolves to when there is a session. *)
Record session_result := { session : session_row; user : user_row }.

(** What [auth.api.verifyApiKey] resolves to: [{ valid: true, key }] or
    [{ valid: false, key: null }]. *)
Inductive verify_result :=
| Verified (key : apikey_row)
| NotVerified.

(** The [auth] instance, as far as the adapter calls it. *)
Record Auth (W : Type) := {
  api_getSession : gmap string string -> Async W (option session_result);
  api_verifyApiKey : string -> Async W verify_result
}.
Arguments api_getSession {W} _ _ _.
Arguments api_verifyApiKey {W} _ _ _.

(** *** [hooks.after]: user profile sync on sign-up (AUTH.md 373-384) *)
Record hook_ctx := {
  path : string;
  context_user : option user_row   (* [ctx.context.user] *)
}.

Definition hooks_after (ctx : hook_ctx) : Async Db.t unit :=
  match bool_decide (path ctx = "/sign-up/email"), context_user ctx with
  | true, Some u =>
      Db.insert_userProfiles
        {| Db.userId := user_id u;
           Db.role := Some Db.editor;
           Db.preferences := None |}
  | _, _ => resolve tt
  end.

(** *** The adapter (AUTH.md 392-428) *)
Section Adapter.
Context {W : Type} (auth : Auth W).

Definition getSession (request : Request)
  : Async W (option SessionAuth.t) :=
  session <- api_getSession auth (headers request) ;;
  match session with
  | None => resolve None
  | Some session =>
      resolve (Some
        {| SessionAuth.type := "session";
           SessionAuth.user :=
             {| SessionAuth.user_id := user_id (user session);
                SessionAuth.user_email := user_email (user session);
                SessionAuth.user_name := user_name (user session);
                SessionAuth.user_image := user_image (user session) |};
           SessionAuth.session :=
             {| SessionAuth.session_id := session_id (BetterAuth.session session);
                SessionAuth.session_expiresAt :=
                  session_expiresAt (BetterAuth.session session) |} |})
  end.

(** [result.key.name || 'Unnamed Key'] *)
Definition name_or_unnamed (name : option string) : string :=
  match name with
  | Some s => if truthy (Some s) then s else "Unnamed Key"
  | None => "Unnamed Key"
  end.

Definition validateApiKey (request : Request)
  : Async W (option ApiKeyAuth.t) :=
  match Headers_get (headers request) "x-api-key" with
  | Some apiKeyHeader =>
      if negb (truthy (Some apiKeyHeader)) then resolve None
      else
        result <- api_verifyApiKey auth apiKeyHeader ;;
        match result with
        | NotVerified => resolve None
        | Verified key =>
            resolve (Some
              {| ApiKeyAuth.type := "api_key";
                 ApiKeyAuth.keyId := apikey_id key;
                 ApiKeyAuth.name := name_or_unnamed (apikey_name key);
                 ApiKeyAuth.permissions := [read; write];
                 ApiKeyAuth.lastUsedAt := None |})
        end
  | None => resolve None
  end.
End Adapter.

(** The listing stops at "// ... requireSession, requireApiKey"
    (AUTH.md 427).  The two bodies AUTH.md does give (565-569, 590-598)
    use nothing of the adapter they sit in but [this.getSession] and
    [this.validateApiKey]; here they run on this adapter's. *)
Definition requireSession {W} (auth : Auth W) :=
  This.requireSession (getSession auth).
Definition requireApiKey {W} (auth : Auth W) :=
  This.requireApiKey (validateApiKey auth).

Definition authProvider {W} (auth : Auth W) : AuthProvider W :=
  {| AuthProvider_getSession := getSession auth;
     AuthProvider_requireSession := requireSession auth;
     AuthProvider_validateApiKey := validateApiKey auth;
     AuthProvider_requireApiKey := requireApiKey auth |}.
End BetterAuth.

(** ** Migration target: Clerk (AUTH.md 531-599) *)
Module Clerk.
Record email_address := { emailAddress : string }.
Record user_t := {
  user_id : string;
  emailAddresses : list email_address;
  firstName : option string;
  lastName : option string;
  imageUrl : string
}.
Record session_t := {
  session_id : string;
  userId : string;
  expireAt : Z                 (* a time stamp in ms *)
}.
(** A row of the custom key table; [satisfies ApiKeyAuth] types its
    [name] as a string and its [permissions] as a permission array. *)
Record apiKeys_row := {
  id : string;
  key : string;
  name : string;
  permissions : list Permission
}.

(** [clerkClient] and [db], as far as the adapter calls them. *)
Record Backend (W : Type) := {
  sessions_getSession : string -> Async W (option session_t);
  users_getUser : string -> Async W user_t;
  apiKeys_findFirst : string -> Async W (option apiKeys_row)
    (* [db.query.apiKeys.findFirst({ where: eq(apiKeys.key, k) })] *)
}.
Arguments sessions_getSession {W} _ _ _.
Arguments users_getUser {W} _ _ _.
Arguments apiKeys_findFirst {W} _ _ _.

(** A [string | null] inside a template literal. *)
Definition interpolate (v : option string) : string :=
  match v with
  | Some s => s
  | None => "null"
  end.

Section Adapter.
Context {W : Type} (backend : Backend W).

Definition getSession (request : Request)
  : Async W (option SessionAuth.t) :=
  match Headers_get (headers request) "x-clerk-session-id" with
  | None => resolve None
  | Some sessionId =>
      if negb (truthy (Some sessionId)) then resolve None
      else
        session <- sessions_getSession backend sessionId ;;
        match session with
        | None => resolve None
        | Some session =>
            user <- users_getUser backend (userId session) ;;
            resolve (Some
              {| SessionAuth.type := "session";
                 SessionAuth.user :=
                   {| SessionAuth.user_id := user_id user;
                      SessionAuth.user_email :=
                        match emailAddresses user !! 0%nat with
                        | Some address => emailAddress address
                        | None => ""
                        end;
                      SessionAuth.user_name :=
                        Some (interpolate (firstName user) +:+ " "
                              +:+ interpolate (lastName user));
                      SessionAuth.user_image := Some (imageUrl user) |};
                 SessionAuth.session :=
                   {| SessionAuth.session_id := session_id session;
                      SessionAuth.session_expiresAt := expireAt session |} |})
        end
  end.

Definition validateApiKey (request : Request)
  : Async W (option ApiKeyAuth.t) :=
  match Headers_get (headers request) "x-api-key" with
  | None => resolve None
  | Some apiKey =>
      if negb (truthy (Some apiKey)) then resolve None
      else
        key <- apiKeys_findFirst backend apiKey ;;
        match key with
        | None => resolve None
        | Some key =>
            resolve (Some
              {| ApiKeyAuth.type := "api_key";
                 ApiKeyAuth.keyId := id key;
                 ApiKeyAuth.name := name key;
                 ApiKeyAuth.permissions := permissions key;
                 ApiKeyAuth.lastUsedAt := None |})
        end
  end.

Definition authProvider : AuthProvider W :=
  {| AuthProvider_getSession := getSession;
     AuthProvider_requireSession := This.requireSession getSession;
     AuthProvider_validateApiKey := validateApiKey;
     AuthProvider_requireApiKey := This.requireApiKey validateApiKey |}.
End Adapter.

Definition requireSession {W} (backend : Backend W) :=
  This.requireSession (getSession backend).
Definition requireApiKey {W} (backend : Backend W) :=
  This.requireApiKey (validateApiKey backend).
End Clerk.

(** ** Stand-ins for the outside world

    The world is the number of API keys verified so far (Better Auth's
    rate-limit counter); looking up a session leaves it alone. *)
Module Fake.
Definition alice : BetterAuth.session_result :=
  {| BetterAuth.session :=
       {| BetterAuth.session_id := "s1";
          BetterAuth.session_expiresAt := 1767225600000;
          BetterAuth.session_token := "tok1";
          BetterAuth.session_userId := Some "u1" |};
     BetterAuth.user :=
       {| BetterAuth.user_id := "u1";
          BetterAuth.user_name := Some "Alice";
          BetterAuth.user_email := "alice@example.org";
          BetterAuth.user_image := None |} |}.

(** A key record stored with the permission [read] alone. *)
Definition k1 : BetterAuth.apikey_row :=
  {| BetterAuth.apikey_id := "k1";
     BetterAuth.apikey_name := Some "ci";
     BetterAuth.apikey_userId := Some "u1";
     BetterAuth.apikey_permissions := Some "read";
     BetterAuth.apikey_metadata := None |}.

Definition auth : BetterAuth.Auth nat :=
  {| BetterAuth.api_getSession := fun h =>
       if bool_decide (h !! "cookie" = Some "session_token=tok1")
       then resolve (Some alice) else resolve None;
     BetterAuth.api_verifyApiKey := fun k n =>
       (Fulfilled (if bool_decide (k = "abc123")
                   then BetterAuth.Verified k1 else BetterAuth.NotVerified),
        S n) |}.

(** An identity provider that cannot be reached. *)
Definition offline : BetterAuth.Auth nat :=
  {| BetterAuth.api_getSession := fun _ => throw (ProviderError "fetch failed");
     BetterAuth.api_verifyApiKey := fun _ => throw (ProviderError "fetch failed") |}.

Definition api_keys : list Clerk.apiKeys_row :=
  [ {| Clerk.id := "k1"; Clerk.key := "abc123"; Clerk.name := "ci";
       Clerk.permissions := [read] |};
    {| Clerk.id := "k2"; Clerk.key := "nothing"; Clerk.name := "bare";
       Clerk.permissions := [] |} ].

Definition bob : Clerk.user_t :=
  {| Clerk.user_id := "user_1";
     Clerk.emailAddresses := [ {| Clerk.emailAddress := "bob@example.org" |} ];
     Clerk.firstName := Some "Bob";
     Clerk.lastName := None;
     Clerk.imageUrl := "https://img.example.org/bob.png" |}.

Definition backend : Clerk.Backend nat :=
  {| Clerk.sessions_getSession := fun sid =>
       if bool_decide (sid = "sess_1")
       then resolve (Some {| Clerk.session_id := "sess_1";
                             Clerk.userId := "user_1";
                             Clerk.expireAt := 1767225600000 |})
       else resolve None;
     Clerk.users_getUser := fun uid =>
       if bool_decide (uid = "user_1") then resolve bob
       else throw (ProviderError "resource_not_found");
     Clerk.apiKeys_findFirst := fun k =>
       resolve (List.find (fun row => bool_decide (Clerk.key row = k)) api_keys) |}.

Definition with_header (name value : string) : Request :=
  {| headers := {[ name := value ]} |}.
Definition bare : Request := {| headers := ∅ |}.
End Fake.


(** ** The Clerk webhook that syncs user profiles (AUTH.md 630-643) *)
Module ClerkWebhook.




End ClerkWebhook.

(** ** The server-side auth service on Better Auth (AUTH.md 134-165)

    The world is the [apikey] table of [auth-schema.ts] (332-341). *)
Module AuthService.
Record apikey_row := {
  id : string;
  name : option string;
  key : string;
  userId : option string;      (* [references(() => user.id)], nullable *)
  rateLimitEnabled : option bool;
  rateLimitMax : option Z;
  permissions : option string;
  metadata : option string
}.

(** [columns: { id: true, name: true, /* ... */ }]: the columns the
    listing names. *)
Record listed_key := { listed_id : string; listed_name : option string }.

(** [eq(apikey.userId, userId)]: a NULL [user_id] equals nothing. *)
Definition eq_userId (userId : string) (row : apikey_row) : bool :=
  bool_decide (AuthService.userId row = Some userId).

(** [eq(apikey.id, keyId)] *)
Definition eq_id (keyId : string) (row : apikey_row) : bool :=
  bool_decide (id row = keyId).

Definition listApiKeys (userId : string)
  : Async (list apikey_row) (list listed_key) :=
  fun table =>
    (Fulfilled ((fun row => {| listed_id := id row; listed_name := name row |})
                <$> List.filter (eq_userId userId) table),
     table).

(** [db.delete(apikey).where(and(eq(apikey.id, keyId),
    eq(apikey.userId, userId)))], then [result.rowCount > 0]. *)
Definition deleteApiKey (userId keyId : string)
  : Async (list apikey_row) bool :=
  fun table =>
    let matches := fun row => eq_id keyId row && eq_userId userId row in
    let rowCount := length (List.filter matches table) in
    (Fulfilled (bool_decide (0 < rowCount)%nat),
     List.filter (fun row => negb (matches row)) table).
End AuthService.

(** ** The client-side wrapper on Better Auth (AUTH.md 199-222) *)
Module AuthClient.
Record client_error := { message : option string }.
Record client_result := { error : option client_error }.
Record credentials := { email : string; password : string }.

(** [betterAuthClient], as far as the wrapper calls it. *)
Record BetterAuthClient (W : Type) := {
  signIn_email : credentials -> Async W client_result;
  signUp_email : credentials -> Async W client_result;
  client_signOut : Async W unit
}.
Arguments signIn_email {W} _ _ _.
Arguments signUp_email {W} _ _ _.
Arguments client_signOut {W} _ _.

(** [{ error?: string }] *)
Record outcome := { outcome_error : option string }.

(** [result.error?.message] *)
Definition error_message (result : client_result) : option string :=
  match error result with
  | Some e => message e
  | None => None
  end.

Section Wrapper.
Context {W : Type} (betterAuthClient : BetterAuthClient W).

Definition signIn (email password : string) : Async W outcome :=
  result <- signIn_email betterAuthClient
              {| AuthClient.email := email; AuthClient.password := password |} ;;
  resolve {| outcome_error := error_message result |}.

Definition signUp (email password : string) : Async W outcome :=
  result <- signUp_email betterAuthClient
              {| AuthClient.email := email; AuthClient.password := password |} ;;
  resolve {| outcome_error := error_message result |}.

Definition signOut : Async W unit :=
  signedOut <- client_signOut betterAuthClient ;;
  resolve tt.
End Wrapper.
End AuthClient.

(** ** Gradual migration behind a feature flag (AUTH.md 762-771) *)
Module Config.
(** [env.FEATURE_CLERK === 'true'] *)
Definition USE_CLERK (env : gmap string string) : bool :=
  bool_decide (env !! "FEATURE_CLERK" = Some "true").

Definition auth_provider {W} (env : gmap string string)
    (clerkAuthProvider betterAuthProvider : AuthProvider W) : AuthProvider W :=
  if USE_CLERK env then clerkAuthProvider else betterAuthProvider.
End Config.

(** ** Sample data for the service and the webhook *)
Module Sample.
Definition key_of (id owner : string) : AuthService.apikey_row :=
  {| AuthService.id := id;
     AuthService.name := Some "deploy";
     AuthService.key := "hash-" +:+ id;
     AuthService.userId := Some owner;
     AuthService.rateLimitEnabled := Some true;
     AuthService.rateLimitMax := Some 10000%Z;
     AuthService.permissions := None;
     AuthService.metadata := None |}.

Definition orphan : AuthService.apikey_row :=
  {| AuthService.id := "k9";
     AuthService.name := None;
     AuthService.key := "hash-k9";
     AuthService.userId := None;
     AuthService.rateLimitEnabled := None;
     AuthService.rateLimitMax := None;
     AuthService.permissions := None;
     AuthService.metadata := None |}.

Definition apikey : list AuthService.apikey_row :=
  [ key_of "k1" "u1"; key_of "k2" "u2"; orphan; key_of "k3" "u1" ].


Definition empty_db : Db.t := {| Db.cms_user_profiles := []; Db.journal := [] |}.

(** A Better Auth client whose sign-in fails without a message and whose
    sign-up fails with one. *)
Definition client : AuthClient.BetterAuthClient unit :=
  {| AuthClient.signIn_email := fun _ =>
       resolve {| AuthClient.error :=
                    Some {| AuthClient.message := None |} |};
     AuthClient.signUp_email := fun _ =>
       resolve {| AuthClient.error :=
                    Some {| AuthClient.message := Some "User already exists" |} |};
     AuthClient.client_signOut := resolve tt |}.

(** A Clerk whose user [user_2] has neither names nor email addresses and
    whose session [sess_3] belongs to a user it no longer knows; the world
    counts the calls made to it. *)
Definition nameless : Clerk.user_t :=
  {| Clerk.user_id := "user_2";
     Clerk.emailAddresses := [];
     Clerk.firstName := None;
     Clerk.lastName := None;
     Clerk.imageUrl := "" |}.

Definition clerk : Clerk.Backend nat :=
  {| Clerk.sessions_getSession := fun sid n =>
       (Fulfilled
          (if bool_decide (sid = "sess_2")
           then Some {| Clerk.session_id := "sess_2"; Clerk.userId := "user_2";
                        Clerk.expireAt := 1767225600000 |}
           else if bool_decide (sid = "sess_3")
           then Some {| Clerk.session_id := "sess_3"; Clerk.userId := "user_gone";
                        Clerk.expireAt := 1767225600000 |}
           else None),
        S n);
     Clerk.users_getUser := fun uid n =>
       (if bool_decide (uid = "user_2") then Fulfilled nameless
        else Rejected (ProviderError "resource_not_found"),
        S n);
     Clerk.apiKeys_findFirst := fun k n =>
       (Fulfilled (List.find (fun row => bool_decide (Clerk.key row = k))
                     Fake.api_keys),
        S n) |}.

(** A Clerk and a key table that cannot be reached. *)
Definition clerk_down : Clerk.Backend nat :=
  {| Clerk.sessions_getSession := fun _ => throw (ProviderError "fetch failed");
     Clerk.users_getUser := fun _ => throw (ProviderError "fetch failed");
     Clerk.apiKeys_findFirst := fun _ => throw (ProviderError "ECONNREFUSED") |}.

(** The context Better Auth hands an after-hook when an email sign-up has
    succeeded: the created user is under [ctx.context.newSession.user],
    which the hook does not read; [ctx.context.user] is not set. *)
Definition signed_up : BetterAuth.hook_ctx :=
  {| BetterAuth.path := "/sign-up/email"; BetterAuth.context_user := None |}.
End Sample.

(** ** Vocabulary of the properties *)

(** The [SessionAuth] the Better Auth adapter builds from a provider
    session, and the [ApiKeyAuth] it builds from a verified key. *)
Definition BetterAuth_SessionAuth (s : BetterAuth.session_result)
  : SessionAuth.t :=
  {| SessionAuth.type := "session";
     SessionAuth.user :=
       {| SessionAuth.user_id := BetterAuth.user_id (BetterAuth.user s);
          SessionAuth.user_email := BetterAuth.user_email (BetterAuth.user s);
          SessionAuth.user_name := BetterAuth.user_name (BetterAuth.user s);
          SessionAuth.user_image := BetterAuth.user_image (BetterAuth.user s) |};
     SessionAuth.session :=
       {| SessionAuth.session_id :=
            BetterAuth.session_id (BetterAuth.session s);
          SessionAuth.session_expiresAt :=
            BetterAuth.session_expiresAt (BetterAuth.session s) |} |}.

Definition BetterAuth_ApiKeyAuth (key : BetterAuth.apikey_row) : ApiKeyAuth.t :=
  {| ApiKeyAuth.type := "api_key";
     ApiKeyAuth.keyId := BetterAuth.apikey_id key;
     ApiKeyAuth.name := BetterAuth.name_or_unnamed (BetterAuth.apikey_name key);
     ApiKeyAuth.permissions := [read; write];
     ApiKeyAuth.lastUsedAt := None |}.

(** The same for the Clerk adapter. *)
Definition Clerk_SessionAuth (s : Clerk.session_t) (u : Clerk.user_t)
  : SessionAuth.t :=
  {| SessionAuth.type := "session";
     SessionAuth.user :=
       {| SessionAuth.user_id := Clerk.user_id u;
          SessionAuth.user_email :=
            match Clerk.emailAddresses u !! 0%nat with
            | Some address => Clerk.emailAddress address
            | None => ""
            end;
          SessionAuth.user_name :=
            Some (Clerk.interpolate (Clerk.firstName u) +:+ " "
                  +:+ Clerk.interpolate (Clerk.lastName u));
          SessionAuth.user_image := Some (Clerk.imageUrl u) |};
     SessionAuth.session :=
       {| SessionAuth.session_id := Clerk.session_id s;
          SessionAuth.session_expiresAt := Clerk.expireAt s |} |}.

Definition Clerk_ApiKeyAuth (row : Clerk.apiKeys_row) : ApiKeyAuth.t :=
  {| ApiKeyAuth.type := "api_key";
     ApiKeyAuth.keyId := Clerk.id row;
     ApiKeyAuth.name := Clerk.name row;
     ApiKeyAuth.permissions := Clerk.permissions row;
     ApiKeyAuth.lastUsedAt := None |}.

(** Two calls of the same operation, one after the other. *)
Definition twice {W A} (m : Async W A) : Async W (A * A) :=
  a <- m ;; b <- m ;; resolve (a, b).

(** The errors of the contract, and computations that reject with nothing
    but errors from a given set. *)
Definition boundary_error (e : exn) : Prop :=
  e = Unauthorized \/ e = Forbidden.

Definition rejects_only {W A} (allowed : exn -> Prop) (m : Async W A) : Prop :=
  forall w,
    match fst (m w) with
    | Fulfilled _ => True
    | Rejected e => allowed e
    end.

(** The own properties a returned object shows. *)
Definition SessionAuth_shape (discriminant : string) (a : SessionAuth.t) : Prop :=
  exists props user session,
    SessionAuth.to_js a = JObject props
    /\ dom props = {[ discriminant; "user"; "session" ]}
    /\ props !! discriminant = Some (JString "session")
    /\ props !! "user" = Some (JObject user)
    /\ dom user = {[ "id"; "email"; "name"; "image" ]}
    /\ props !! "session" = Some (JObject session)
    /\ dom session = {[ "id"; "expiresAt" ]}.

Definition ApiKeyAuth_shape (discriminant : string) (a : ApiKeyAuth.t) : Prop :=
  exists props,
    ApiKeyAuth.to_js a = JObject props
    /\ props !! discriminant = Some (JString "api_key")
    /\ {[ discriminant; "keyId"; "name"; "permissions" ]} ⊆ dom props
    /\ dom props ⊆ {[ discriminant; "keyId"; "name"; "permissions"; "lastUsedAt" ]}.

(** * Properties *)

(** ** Running an [await] *)
Section AwaitFacts.
Context {W A B : Type}.
Implicit Types (m : Async W A) (k : A -> Async W B).

Lemma await_fulfilled m k w a w' :
  m w = (Fulfilled a, w') -> await m k w = k a w'.
Proof. unfold await. by intros ->. Qed.

Lemma await_rejected m k w e w' :
  m w = (Rejected e, w') -> await m k w = (Rejected e, w').
Proof. unfold await. by intros ->. Qed.
End AwaitFacts.

Lemma Unauthorized_not_Forbidden : Unauthorized <> Forbidden.
Proof. discriminate. Qed.

Section ThisFacts.
Context {W : Type}.
Variable this_getSession : Request -> Async W (option SessionAuth.t).
Variable this_validateApiKey : Request -> Async W (option ApiKeyAuth.t).

Lemma requireSession_run request w :
  This.requireSession this_getSession request w =
  match this_getSession request w with
  | (Fulfilled (Some session), w') => (Fulfilled session, w')
  | (Fulfilled None, w') => (Rejected Unauthorized, w')
  | (Rejected e, w') => (Rejected e, w')
  end.
Proof.
  unfold This.requireSession, await.
  destruct (this_getSession request w) as [[[s|]|e] w']; reflexivity.
Qed.

Lemma requireApiKey_run request permission w :
  This.requireApiKey this_validateApiKey request permission w =
  match this_validateApiKey request w with
  | (Fulfilled (Some apiKey), w') =>
      match permission with
      | Some p =>
          if includes (ApiKeyAuth.permissions apiKey) p
          then (Fulfilled apiKey, w') else (Rejected Forbidden, w')
      | None => (Fulfilled apiKey, w')
      end
  | (Fulfilled None, w') => (Rejected Unauthorized, w')
  | (Rejected e, w') => (Rejected e, w')
  end.
Proof.
  unfold This.requireApiKey, await.
  destruct (this_validateApiKey request w) as [[[a|]|e] w']; try reflexivity.
  destruct permission as [p|]; [|reflexivity].
  by destruct (includes _ p).
Qed.
End ThisFacts.

(** C3: [requireApiKey] fails with Unauthorized when [validateApiKey]
    returns absent; it fails with Forbidden when a key validates, a
    permission is supplied and the permission is not among the key's
    permissions; otherwise (no permission supplied, or one the key has) it
    returns the validated [ApiKeyAuth]. *)
Theorem requireApiKey_outcomes {W}
    (this_validateApiKey : Request -> Async W (option ApiKeyAuth.t))
    (request : Request) (permission : option Permission) (w : W) :
  (forall w',
      this_validateApiKey request w = (Fulfilled None, w') ->
      This.requireApiKey this_validateApiKey request permission w
      = (Rejected Unauthorized, w'))
  /\ (forall apiKey p w',
      this_validateApiKey request w = (Fulfilled (Some apiKey), w') ->
      permission = Some p ->
      p ∉ ApiKeyAuth.permissions apiKey ->
      This.requireApiKey this_validateApiKey request permission w
      = (Rejected Forbidden, w'))
  /\ (forall apiKey w',
      this_validateApiKey request w = (Fulfilled (Some apiKey), w') ->
      (permission = None
       \/ exists p, permission = Some p /\ p ∈ ApiKeyAuth.permissions apiKey) ->
      This.requireApiKey this_validateApiKey request permission w
      = (Fulfilled apiKey, w')).
Proof.
  repeat split.
  - intros w' H. by rewrite requireApiKey_run, H.
  - intros apiKey p w' H -> Hp. rewrite requireApiKey_run, H.
    unfold includes. by rewrite bool_decide_eq_false_2.
  - intros apiKey w' H [-> | (p & -> & Hp)]; rewrite requireApiKey_run, H.
    + reflexivity.
    + unfold includes. by rewrite bool_decide_eq_true_2.
Qed.

Lemma requireApiKey_outcomes_witness :
  let validate := Clerk.validateApiKey Fake.backend in
  let abc123 := Fake.with_header "x-api-key" "abc123" in
  This.requireApiKey validate Fake.bare (Some read) 0%nat
  = (Rejected Unauthorized, 0%nat)
  /\ This.requireApiKey validate abc123 (Some write) 0%nat
     = (Rejected Forbidden, 0%nat)
  /\ (exists apiKey,
        ApiKeyAuth.keyId apiKey = "k1"
        /\ This.requireApiKey validate abc123 (Some read) 0%nat
           = (Fulfilled apiKey, 0%nat)).
Proof.
  intros validate abc123. split; [| split].
  - destruct (requireApiKey_outcomes validate Fake.bare (Some read) 0%nat)
      as (H & _ & _).
    apply H. reflexivity.
  - destruct (requireApiKey_outcomes validate abc123 (Some write) 0%nat)
      as (_ & H & _).
    eapply H; [vm_compute; reflexivity | reflexivity |].
    simpl. rewrite list_elem_of_singleton. discriminate.
  - destruct (requireApiKey_outcomes validate abc123 (Some read) 0%nat)
      as (_ & _ & H).
    eexists. split; [| eapply H; [vm_compute; reflexivity |]].
    + reflexivity.
    + right. exists read. split; [reflexivity |]. simpl.
      apply list_elem_of_singleton. reflexivity.
Defined.

(** C7: [requireSession] succeeds exactly when [getSession] on the same
    request (from the same state of the world) returns a non-absent
    [SessionAuth], and then returns that very value; when [getSession]
    returns absent, [requireSession] fails with Unauthorized. *)
Theorem requireSession_iff_getSession {W}
    (this_getSession : Request -> Async W (option SessionAuth.t))
    (request : Request) (w : W) :
  (forall session w',
      This.requireSession this_getSession request w = (Fulfilled session, w')
      <-> this_getSession request w = (Fulfilled (Some session), w'))
  /\ (forall w',
      this_getSession request w = (Fulfilled None, w') ->
      This.requireSession this_getSession request w
      = (Rejected Unauthorized, w')).
Proof.
  split.
  - intros session w'. rewrite requireSession_run.
    destruct (this_getSession request w) as [[[s|]|e] w1]; split; congruence.
  - intros w' H. by rewrite requireSession_run, H.
Qed.

Lemma requireSession_iff_getSession_witness :
  let cookie := Fake.with_header "cookie" "session_token=tok1" in
  (exists session,
      SessionAuth.user_id (SessionAuth.user session) = "u1"
      /\ BetterAuth.getSession Fake.auth cookie 0%nat
         = (Fulfilled (Some session), 0%nat)
      /\ This.requireSession (BetterAuth.getSession Fake.auth) cookie 0%nat
         = (Fulfilled session, 0%nat))
  /\ This.requireSession (BetterAuth.getSession Fake.auth) Fake.bare 0%nat
     = (Rejected Unauthorized, 0%nat).
Proof.
  intros cookie. split.
  - eexists. split; [| split].
    2: vm_compute; reflexivity.
    + reflexivity.
    + apply (requireSession_iff_getSession
               (BetterAuth.getSession Fake.auth) cookie 0%nat).
      vm_compute. reflexivity.
  - apply (requireSession_iff_getSession
             (BetterAuth.getSession Fake.auth) Fake.bare 0%nat).
    reflexivity.
Defined.

(** C9: for a request whose API key validates, [requireApiKey(request)]
    with no permission argument succeeds and returns the key's
    [ApiKeyAuth], whatever the key's permissions are (none at all
    included). *)
Theorem requireApiKey_without_permission {W}
    (this_validateApiKey : Request -> Async W (option ApiKeyAuth.t))
    (request : Request) (w w' : W) (apiKey : ApiKeyAuth.t) :
  this_validateApiKey request w = (Fulfilled (Some apiKey), w') ->
  This.requireApiKey this_validateApiKey request None w
  = (Fulfilled apiKey, w').
Proof. intros H. by rewrite requireApiKey_run, H. Qed.

Lemma requireApiKey_without_permission_witness :
  exists apiKey,
    ApiKeyAuth.permissions apiKey = []
    /\ Clerk.validateApiKey Fake.backend
         (Fake.with_header "x-api-key" "nothing") 0%nat
       = (Fulfilled (Some apiKey), 0%nat)
    /\ This.requireApiKey (Clerk.validateApiKey Fake.backend)
         (Fake.with_header "x-api-key" "nothing") None 0%nat
       = (Fulfilled apiKey, 0%nat).
Proof.
  eexists. split; [| split].
  2: vm_compute; reflexivity.
  - reflexivity.
  - apply requireApiKey_without_permission. vm_compute. reflexivity.
Defined.

(** ** The Better Auth adapter, call by call *)
Section BetterAuthFacts.
Context {W : Type} (auth : BetterAuth.Auth W).

Lemma BetterAuth_getSession_run request w :
  BetterAuth.getSession auth request w =
  match BetterAuth.api_getSession auth (headers request) w with
  | (Fulfilled (Some s), w') => (Fulfilled (Some (BetterAuth_SessionAuth s)), w')
  | (Fulfilled None, w') => (Fulfilled None, w')
  | (Rejected e, w') => (Rejected e, w')
  end.
Proof.
  unfold BetterAuth.getSession, await.
  destruct (BetterAuth.api_getSession auth (headers request) w)
    as [[[s|]|e] w']; reflexivity.
Qed.

Lemma BetterAuth_validateApiKey_no_header request w :
  truthy (Headers_get (headers request) "x-api-key") = false ->
  BetterAuth.validateApiKey auth request w = (Fulfilled None, w).
Proof.
  unfold BetterAuth.validateApiKey.
  destruct (Headers_get (headers request) "x-api-key") as [h|]; [|done].
  by intros ->.
Qed.

Lemma BetterAuth_validateApiKey_run request h w :
  Headers_get (headers request) "x-api-key" = Some h ->
  truthy (Some h) = true ->
  BetterAuth.validateApiKey auth request w =
  match BetterAuth.api_verifyApiKey auth h w with
  | (Fulfilled (BetterAuth.Verified key), w') =>
      (Fulfilled (Some (BetterAuth_ApiKeyAuth key)), w')
  | (Fulfilled BetterAuth.NotVerified, w') => (Fulfilled None, w')
  | (Rejected e, w') => (Rejected e, w')
  end.
Proof.
  intros Hh Ht. unfold BetterAuth.validateApiKey, await. rewrite Hh, Ht. simpl.
  destruct (BetterAuth.api_verifyApiKey auth h w) as [[[key|]|e] w'];
    reflexivity.
Qed.

(** Whatever validates was verified by the provider, and comes out with
    both permissions. *)
Lemma BetterAuth_validateApiKey_Some request w apiKey w' :
  BetterAuth.validateApiKey auth request w = (Fulfilled (Some apiKey), w') ->
  exists h key,
    Headers_get (headers request) "x-api-key" = Some h
    /\ BetterAuth.api_verifyApiKey auth h w
       = (Fulfilled (BetterAuth.Verified key), w')
    /\ apiKey = BetterAuth_ApiKeyAuth key.
Proof.
  destruct (Headers_get (headers request) "x-api-key") as [h|] eqn:Hh.
  - destruct (truthy (Some h)) eqn:Ht.
    + rewrite (BetterAuth_validateApiKey_run _ h) by done.
      destruct (BetterAuth.api_verifyApiKey auth h w)
        as [[[key|]|e] w1] eqn:E; intros H; inversion H; subst.
      by exists h, key.
    + rewrite BetterAuth_validateApiKey_no_header by (by rewrite Hh).
      discriminate.
  - rewrite BetterAuth_validateApiKey_no_header by (by rewrite Hh).
    discriminate.
Qed.
End BetterAuthFacts.

(** ** The Clerk adapter, call by call *)
Section ClerkFacts.
Context {W : Type} (backend : Clerk.Backend W).

Lemma Clerk_getSession_no_header request w :
  truthy (Headers_get (headers request) "x-clerk-session-id") = false ->
  Clerk.getSession backend request w = (Fulfilled None, w).
Proof.
  unfold Clerk.getSession.
  destruct (Headers_get (headers request) "x-clerk-session-id") as [h|];
    [|done].
  by intros ->.
Qed.

Lemma Clerk_getSession_run request sessionId w :
  Headers_get (headers request) "x-clerk-session-id" = Some sessionId ->
  truthy (Some sessionId) = true ->
  Clerk.getSession backend request w =
  match Clerk.sessions_getSession backend sessionId w with
  | (Fulfilled (Some s), w1) =>
      match Clerk.users_getUser backend (Clerk.userId s) w1 with
      | (Fulfilled u, w2) => (Fulfilled (Some (Clerk_SessionAuth s u)), w2)
      | (Rejected e, w2) => (Rejected e, w2)
      end
  | (Fulfilled None, w1) => (Fulfilled None, w1)
  | (Rejected e, w1) => (Rejected e, w1)
  end.
Proof.
  intros Hh Ht. unfold Clerk.getSession, await. rewrite Hh, Ht. simpl.
  destruct (Clerk.sessions_getSession backend sessionId w)
    as [[[s|]|e] w1]; reflexivity.
Qed.

Lemma Clerk_validateApiKey_no_header request w :
  truthy (Headers_get (headers request) "x-api-key") = false ->
  Clerk.validateApiKey backend request w = (Fulfilled None, w).
Proof.
  unfold Clerk.validateApiKey.
  destruct (Headers_get (headers request) "x-api-key") as [h|]; [|done].
  by intros ->.
Qed.

Lemma Clerk_validateApiKey_run request apiKey w :
  Headers_get (headers request) "x-api-key" = Some apiKey ->
  truthy (Some apiKey) = true ->
  Clerk.validateApiKey backend request w =
  match Clerk.apiKeys_findFirst backend apiKey w with
  | (Fulfilled (Some row), w') => (Fulfilled (Some (Clerk_ApiKeyAuth row)), w')
  | (Fulfilled None, w') => (Fulfilled None, w')
  | (Rejected e, w') => (Rejected e, w')
  end.
Proof.
  intros Hh Ht. unfold Clerk.validateApiKey, await. rewrite Hh, Ht. simpl.
  destruct (Clerk.apiKeys_findFirst backend apiKey w) as [[[row|]|e] w'];
    reflexivity.
Qed.

(** The Clerk adapter hands the stored permissions through: a key stored
    with [read] alone may read and may not write. *)
Lemma Clerk_read_only_key request apiKey row w w' :
  Headers_get (headers request) "x-api-key" = Some apiKey ->
  truthy (Some apiKey) = true ->
  Clerk.apiKeys_findFirst backend apiKey w = (Fulfilled (Some row), w') ->
  Clerk.permissions row = [read] ->
  (exists a, Clerk.validateApiKey backend request w = (Fulfilled (Some a), w')
             /\ ApiKeyAuth.permissions a = [read]
             /\ Clerk.requireApiKey backend request (Some read) w
                = (Fulfilled a, w'))
  /\ Clerk.requireApiKey backend request (Some write) w
     = (Rejected Forbidden, w').
Proof.
  intros Hh Ht Hrow Hperm.
  assert (Hv : Clerk.validateApiKey backend request w
               = (Fulfilled (Some (Clerk_ApiKeyAuth row)), w'))
    by (by rewrite (Clerk_validateApiKey_run _ apiKey), Hrow).
  unfold Clerk.requireApiKey. split.
  - exists (Clerk_ApiKeyAuth row). split; [done | split; [done |]].
    rewrite requireApiKey_run, Hv. simpl. by rewrite Hperm.
  - rewrite requireApiKey_run, Hv. simpl. by rewrite Hperm.
Qed.
End ClerkFacts.

(** C1, on the Better Auth adapter at the scenario's request (header
    [x-api-key: abc123], bound to the key record [k1] stored with the
    permission [read] alone): [validateApiKey] returns an [ApiKeyAuth]
    whose permissions are [read; write], not [read], and
    [requireApiKey(request, "write")] succeeds instead of failing with
    Forbidden. *)
Theorem BetterAuth_read_key_may_write :
  let request := Fake.with_header "x-api-key" "abc123" in
  BetterAuth.api_verifyApiKey Fake.auth "abc123" 0%nat
  = (Fulfilled (BetterAuth.Verified Fake.k1), 1%nat)
  /\ BetterAuth.apikey_permissions Fake.k1 = Some "read"
  /\ exists apiKey,
      BetterAuth.validateApiKey Fake.auth request 0%nat
      = (Fulfilled (Some apiKey), 1%nat)
      /\ ApiKeyAuth.keyId apiKey = "k1"
      /\ ApiKeyAuth.permissions apiKey = [read; write]
      /\ BetterAuth.requireApiKey Fake.auth request (Some write) 0%nat
         = (Fulfilled apiKey, 1%nat).
Proof.
  intros request. split; [reflexivity | split; [reflexivity |]].
  exists (BetterAuth_ApiKeyAuth Fake.k1).
  repeat split; vm_compute; reflexivity.
Qed.

(** C2: under the Better Auth adapter every [ApiKeyAuth] that
    [validateApiKey] returns has the permissions [read; write], whatever
    the verified key record stores; so for every request whose key the
    adapter validates [requireApiKey(request, p)] succeeds for [p = read]
    and for [p = write], and the Forbidden branch of [requireApiKey] is
    never taken: whenever [requireApiKey] rejects, it is with Unauthorized
    for an absent key or with the rejection of [validateApiKey] itself. *)
Theorem BetterAuth_permissions_always_read_write {W}
    (auth : BetterAuth.Auth W) (request : Request) (w : W) :
  (forall h key w',
      Headers_get (headers request) "x-api-key" = Some h ->
      truthy (Some h) = true ->
      BetterAuth.api_verifyApiKey auth h w
      = (Fulfilled (BetterAuth.Verified key), w') ->
      exists apiKey,
        BetterAuth.validateApiKey auth request w = (Fulfilled (Some apiKey), w')
        /\ ApiKeyAuth.permissions apiKey = [read; write])
  /\ (forall apiKey w',
      BetterAuth.validateApiKey auth request w = (Fulfilled (Some apiKey), w') ->
      ApiKeyAuth.permissions apiKey = [read; write]
      /\ forall p,
          BetterAuth.requireApiKey auth request (Some p) w
          = (Fulfilled apiKey, w'))
  /\ (forall permission e w',
      BetterAuth.requireApiKey auth request permission w = (Rejected e, w') ->
      (e = Unauthorized
       /\ BetterAuth.validateApiKey auth request w = (Fulfilled None, w'))
      \/ BetterAuth.validateApiKey auth request w = (Rejected e, w')).
Proof.
  split; [| split].
  - intros h key w' Hh Ht Hv. exists (BetterAuth_ApiKeyAuth key).
    by rewrite (BetterAuth_validateApiKey_run _ _ h), Hv.
  - intros apiKey w' Hv.
    destruct (BetterAuth_validateApiKey_Some _ _ _ _ _ Hv)
      as (h & key & _ & _ & ->).
    split; [reflexivity |]. intros p.
    unfold BetterAuth.requireApiKey. rewrite requireApiKey_run, Hv.
    by destruct p.
  - intros permission e w'. unfold BetterAuth.requireApiKey.
    rewrite requireApiKey_run.
    destruct (BetterAuth.validateApiKey auth request w)
      as [[[apiKey|]|e1] w1] eqn:Hv.
    + destruct (BetterAuth_validateApiKey_Some _ _ _ _ _ Hv)
        as (h & key & _ & _ & ->).
      by destruct permission as [[]|].
    + intros [= <- <-]. by left.
    + intros [= <- <-]. by right.
Qed.

Lemma BetterAuth_permissions_always_read_write_witness :
  let request := Fake.with_header "x-api-key" "abc123" in
  exists apiKey,
    BetterAuth.validateApiKey Fake.auth request 0%nat
    = (Fulfilled (Some apiKey), 1%nat)
    /\ ApiKeyAuth.permissions apiKey = [read; write]
    /\ BetterAuth.requireApiKey Fake.auth request (Some read) 0%nat
       = (Fulfilled apiKey, 1%nat)
    /\ BetterAuth.requireApiKey Fake.auth request (Some write) 0%nat
       = (Fulfilled apiKey, 1%nat).
Proof.
  intros request.
  destruct (BetterAuth_permissions_always_read_write Fake.auth request 0%nat)
    as (Hstored & Hany & _).
  destruct (Hstored "abc123" Fake.k1 1%nat) as (apiKey & Hv & Hp);
    [reflexivity | reflexivity | reflexivity |].
  exists apiKey. split; [exact Hv | split; [exact Hp |]].
  destruct (Hany apiKey 1%nat Hv) as (_ & Hreq).
  split; apply Hreq.
Defined.




(** ** Calling twice *)
Lemma twice_same {W A} (m : Async W A) (a : A) (w : W) :
  m w = (Fulfilled a, w) -> twice m w = (Fulfilled (a, a), w).
Proof.
  intros H. unfold twice.
  rewrite (await_fulfilled _ _ _ _ _ H), (await_fulfilled _ _ _ _ _ H).
  reflexivity.
Qed.

(** C8: for a request with a valid session token, two calls of
    [getSession] on that request, the identity provider's state being the
    same for both, return structurally identical [SessionAuth] values
    (whose user id is the provider's). *)
Theorem getSession_twice_identical {W} (request : Request) (w : W) :
  (forall (auth : BetterAuth.Auth W) s,
      BetterAuth.api_getSession auth (headers request) w
      = (Fulfilled (Some s), w) ->
      exists a,
        SessionAuth.user_id (SessionAuth.user a)
        = BetterAuth.user_id (BetterAuth.user s)
        /\ twice (BetterAuth.getSession auth request) w
           = (Fulfilled (Some a, Some a), w))
  /\ (forall (backend : Clerk.Backend W) sessionId s u,
      Headers_get (headers request) "x-clerk-session-id" = Some sessionId ->
      truthy (Some sessionId) = true ->
      Clerk.sessions_getSession backend sessionId w = (Fulfilled (Some s), w) ->
      Clerk.users_getUser backend (Clerk.userId s) w = (Fulfilled u, w) ->
      exists a,
        SessionAuth.user_id (SessionAuth.user a) = Clerk.user_id u
        /\ twice (Clerk.getSession backend request) w
           = (Fulfilled (Some a, Some a), w)).
Proof.
  split.
  - intros auth s Hs. exists (BetterAuth_SessionAuth s). split; [reflexivity |].
    apply twice_same. by rewrite BetterAuth_getSession_run, Hs.
  - intros backend sessionId s u Hh Ht Hs Hu.
    exists (Clerk_SessionAuth s u). split; [reflexivity |].
    apply twice_same.
    by rewrite (Clerk_getSession_run _ _ sessionId), Hs, Hu.
Qed.

Lemma getSession_twice_identical_witness :
  (exists a,
      SessionAuth.user_id (SessionAuth.user a) = "u1"
      /\ twice (BetterAuth.getSession Fake.auth
                  (Fake.with_header "cookie" "session_token=tok1")) 0%nat
         = (Fulfilled (Some a, Some a), 0%nat))
  /\ (exists a,
      SessionAuth.user_id (SessionAuth.user a) = "user_1"
      /\ twice (Clerk.getSession Fake.backend
                  (Fake.with_header "x-clerk-session-id" "sess_1")) 0%nat
         = (Fulfilled (Some a, Some a), 0%nat)).
Proof.
  split.
  - destruct (getSession_twice_identical
                (Fake.with_header "cookie" "session_token=tok1") 0%nat)
      as (H & _).
    apply (H Fake.auth Fake.alice). reflexivity.
  - destruct (getSession_twice_identical
                (Fake.with_header "x-clerk-session-id" "sess_1") 0%nat)
      as (_ & H).
    eapply (H Fake.backend "sess_1" _ Fake.bob); reflexivity.
Defined.

(** ** The sign-up hook *)
Lemma issued_insert_userProfiles values db :
  Db.issued (Db.insert_userProfiles values) db = [Db.Insert_userProfiles values].
Proof.
  unfold Db.issued, Db.insert_userProfiles.
  case_bool_decide; simpl; apply drop_app_length.
Qed.

Lemma hooks_after_elsewhere ctx db :
  BetterAuth.path ctx <> "/sign-up/email" \/ BetterAuth.context_user ctx = None ->
  BetterAuth.hooks_after ctx db = (Fulfilled tt, db).
Proof.
  unfold BetterAuth.hooks_after. intros [Hp | Hu].
  - rewrite bool_decide_eq_false_2 by done. reflexivity.
  - rewrite Hu. by case_bool_decide.
Qed.

(** Given a context on [/sign-up/email] that does carry a user under
    [ctx.context.user], the hook hands the database exactly one
    statement, the INSERT of the row [{userId: user.id, role: "editor"}];
    and when the store holds no profile of that user yet, that row is the
    one row added. *)
Lemma hook_with_context_user_inserts_profile
    (ctx : BetterAuth.hook_ctx) (u : BetterAuth.user_row) (db : Db.t) :
  BetterAuth.path ctx = "/sign-up/email" ->
  BetterAuth.context_user ctx = Some u ->
  let profile := {| Db.userId := BetterAuth.user_id u;
                    Db.role := Some Db.editor;
                    Db.preferences := None |} in
  Db.issued (BetterAuth.hooks_after ctx) db = [Db.Insert_userProfiles profile]
  /\ (BetterAuth.user_id u ∉ Db.userId <$> Db.cms_user_profiles db ->
      BetterAuth.hooks_after ctx db
      = (Fulfilled tt,
         {| Db.cms_user_profiles := (Db.cms_user_profiles db ++ [profile])%list;
            Db.journal :=
              (Db.journal db ++ [Db.Insert_userProfiles profile])%list |})).
Proof.
  intros Hpath Huser profile.
  assert (Hhook : BetterAuth.hooks_after ctx = Db.insert_userProfiles profile).
  { unfold BetterAuth.hooks_after. rewrite Huser.
    by rewrite bool_decide_eq_true_2. }
  rewrite Hhook. split.
  - apply issued_insert_userProfiles.
  - intros Hfresh. unfold Db.insert_userProfiles.
    by rewrite bool_decide_eq_false_2.
Qed.

(** C10, on the context of a successful email sign-up (path
    [/sign-up/email], the created user under [ctx.context.newSession],
    no [ctx.context.user]): the hook hands the User Profile Store no
    statement and the store is left without a profile of the new user,
    where the claim has exactly one INSERT of an editor profile. *)
Theorem signup_inserts_no_profile (db : Db.t) :
  BetterAuth.path Sample.signed_up = "/sign-up/email"
  /\ BetterAuth.hooks_after Sample.signed_up db = (Fulfilled tt, db)
  /\ Db.issued (BetterAuth.hooks_after Sample.signed_up) db = []
  /\ Db.cms_user_profiles (snd (BetterAuth.hooks_after Sample.signed_up db))
     = Db.cms_user_profiles db.
Proof.
  assert (Hrun : BetterAuth.hooks_after Sample.signed_up db = (Fulfilled tt, db))
    by (apply hooks_after_elsewhere; by right).
  split; [reflexivity |]. split; [exact Hrun |]. split.
  - unfold Db.issued. rewrite Hrun. simpl. apply drop_all.
  - by rewrite Hrun.
Qed.

(** ** What can cross the boundary *)
Section RejectsOnly.
Context {W : Type}.
Implicit Types allowed : exn -> Prop.

Lemma rejects_only_resolve {A} allowed (a : A) :
  rejects_only (W:=W) allowed (resolve a).
Proof. intros w. exact I. Qed.

Lemma rejects_only_throw {A} allowed e :
  allowed e -> rejects_only (W:=W) (A:=A) allowed (throw e).
Proof. intros H w. exact H. Qed.

Lemma rejects_only_await {A B} allowed (m : Async W A) (k : A -> Async W B) :
  rejects_only allowed m ->
  (forall a, rejects_only allowed (k a)) ->
  rejects_only allowed (await m k).
Proof.
  intros Hm Hk w. unfold await. specialize (Hm w).
  destruct (m w) as [[a|e] w']; simpl in *.
  - apply Hk.
  - exact Hm.
Qed.

Lemma rejects_only_mono {A} allowed allowed' (m : Async W A) :
  (forall e, allowed e -> allowed' e) ->
  rejects_only allowed m -> rejects_only allowed' m.
Proof.
  intros Himp Hm w. specialize (Hm w).
  destruct (fst (m w)); [exact I | by apply Himp].
Qed.

Lemma requireSession_rejects_only allowed this_getSession request :
  rejects_only allowed (this_getSession request) ->
  rejects_only (fun e => boundary_error e \/ allowed e)
    (This.requireSession (W:=W) this_getSession request).
Proof.
  intros H. apply rejects_only_await.
  - eapply rejects_only_mono; [| exact H]. by right.
  - intros [a|].
    + apply rejects_only_resolve.
    + apply rejects_only_throw. left. by left.
Qed.

Lemma requireApiKey_rejects_only allowed this_validateApiKey request permission :
  rejects_only allowed (this_validateApiKey request) ->
  rejects_only (fun e => boundary_error e \/ allowed e)
    (This.requireApiKey (W:=W) this_validateApiKey request permission).
Proof.
  intros H. apply rejects_only_await.
  - eapply rejects_only_mono; [| exact H]. by right.
  - intros [a|].
    + destruct permission as [p|]; [| apply rejects_only_resolve].
      destruct (negb (includes (ApiKeyAuth.permissions a) p)).
      * apply rejects_only_throw. left. by right.
      * apply rejects_only_resolve.
    + apply rejects_only_throw. left. by left.
Qed.

Lemma BetterAuth_getSession_rejects_only allowed (auth : BetterAuth.Auth W) request :
  (forall h, rejects_only allowed (BetterAuth.api_getSession auth h)) ->
  rejects_only allowed (BetterAuth.getSession auth request).
Proof.
  intros H. apply rejects_only_await; [apply H |].
  intros [s|]; apply rejects_only_resolve.
Qed.

Lemma BetterAuth_validateApiKey_rejects_only allowed (auth : BetterAuth.Auth W) request :
  (forall k, rejects_only allowed (BetterAuth.api_verifyApiKey auth k)) ->
  rejects_only allowed (BetterAuth.validateApiKey auth request).
Proof.
  intros H. unfold BetterAuth.validateApiKey.
  destruct (Headers_get (headers request) "x-api-key") as [h|];
    [| apply rejects_only_resolve].
  destruct (negb (truthy (Some h))); [apply rejects_only_resolve |].
  apply rejects_only_await; [apply H |].
  intros [key|]; apply rejects_only_resolve.
Qed.

Lemma Clerk_getSession_rejects_only allowed (backend : Clerk.Backend W) request :
  (forall sid, rejects_only allowed (Clerk.sessions_getSession backend sid)) ->
  (forall uid, rejects_only allowed (Clerk.users_getUser backend uid)) ->
  rejects_only allowed (Clerk.getSession backend request).
Proof.
  intros Hs Hu. unfold Clerk.getSession.
  destruct (Headers_get (headers request) "x-clerk-session-id") as [h|];
    [| apply rejects_only_resolve].
  destruct (negb (truthy (Some h))); [apply rejects_only_resolve |].
  apply rejects_only_await; [apply Hs |].
  intros [s|]; [| apply rejects_only_resolve].
  apply rejects_only_await; [apply Hu |].
  intros u. apply rejects_only_resolve.
Qed.

Lemma Clerk_validateApiKey_rejects_only allowed (backend : Clerk.Backend W) request :
  (forall k, rejects_only allowed (Clerk.apiKeys_findFirst backend k)) ->
  rejects_only allowed (Clerk.validateApiKey backend request).
Proof.
  intros H. unfold Clerk.validateApiKey.
  destruct (Headers_get (headers request) "x-api-key") as [h|];
    [| apply rejects_only_resolve].
  destruct (negb (truthy (Some h))); [apply rejects_only_resolve |].
  apply rejects_only_await; [apply H |].
  intros [row|]; apply rejects_only_resolve.
Qed.
End RejectsOnly.

(** C5 as stated fails: with the identity provider out of reach, the
    Better Auth adapter's [getSession] rejects with the provider's own
    error, which is neither Unauthorized nor Forbidden. *)
Lemma provider_error_crosses_the_boundary :
  BetterAuth.getSession Fake.offline Fake.bare 0%nat
  = (Rejected (ProviderError "fetch failed"), 0%nat)
  /\ ~ rejects_only boundary_error (BetterAuth.getSession Fake.offline Fake.bare).
Proof.
  split; [reflexivity |].
  intros H. specialize (H 0%nat). simpl in H.
  destruct H as [H | H]; discriminate H.
Qed.

(** C5, amended: the adapters add no failure of their own beyond
    Unauthorized and Forbidden.  If the calls into the identity provider
    and the key store reject with nothing outside a set of errors (none at
    all, when they do not fail), then [getSession] and [validateApiKey]
    reject with nothing outside that set, and [requireSession] and
    [requireApiKey] with nothing but Unauthorized, Forbidden and that set.
    Nothing is caught: an error of any call into the provider or the key
    store (Better Auth's session lookup and key verification, Clerk's
    session lookup and user lookup, the key table query) is the error the
    operation that made the call, and the mandatory variant on top of it,
    reject with. *)
Theorem only_provider_errors_cross_the_boundary {W}
    (provider_error : exn -> Prop)
    (request : Request) (permission : option Permission) :
  (forall auth : BetterAuth.Auth W,
      (forall h, rejects_only provider_error (BetterAuth.api_getSession auth h)) ->
      (forall k, rejects_only provider_error (BetterAuth.api_verifyApiKey auth k)) ->
      rejects_only provider_error (BetterAuth.getSession auth request)
      /\ rejects_only provider_error (BetterAuth.validateApiKey auth request)
      /\ rejects_only (fun e => boundary_error e \/ provider_error e)
           (BetterAuth.requireSession auth request)
      /\ rejects_only (fun e => boundary_error e \/ provider_error e)
           (BetterAuth.requireApiKey auth request permission))
  /\ (forall backend : Clerk.Backend W,
      (forall sid, rejects_only provider_error (Clerk.sessions_getSession backend sid)) ->
      (forall uid, rejects_only provider_error (Clerk.users_getUser backend uid)) ->
      (forall k, rejects_only provider_error (Clerk.apiKeys_findFirst backend k)) ->
      rejects_only provider_error (Clerk.getSession backend request)
      /\ rejects_only provider_error (Clerk.validateApiKey backend request)
      /\ rejects_only (fun e => boundary_error e \/ provider_error e)
           (Clerk.requireSession backend request)
      /\ rejects_only (fun e => boundary_error e \/ provider_error e)
           (Clerk.requireApiKey backend request permission))
  /\ (forall (auth : BetterAuth.Auth W) e w w',
      BetterAuth.api_getSession auth (headers request) w = (Rejected e, w') ->
      BetterAuth.getSession auth request w = (Rejected e, w')
      /\ BetterAuth.requireSession auth request w = (Rejected e, w'))
  /\ (forall (auth : BetterAuth.Auth W) h e w w',
      Headers_get (headers request) "x-api-key" = Some h ->
      truthy (Some h) = true ->
      BetterAuth.api_verifyApiKey auth h w = (Rejected e, w') ->
      BetterAuth.validateApiKey auth request w = (Rejected e, w')
      /\ BetterAuth.requireApiKey auth request permission w = (Rejected e, w'))
  /\ (forall (backend : Clerk.Backend W) sessionId e w w',
      Headers_get (headers request) "x-clerk-session-id" = Some sessionId ->
      truthy (Some sessionId) = true ->
      Clerk.sessions_getSession backend sessionId w = (Rejected e, w') ->
      Clerk.getSession backend request w = (Rejected e, w')
      /\ Clerk.requireSession backend request w = (Rejected e, w'))
  /\ (forall (backend : Clerk.Backend W) sessionId s e w w1 w2,
      Headers_get (headers request) "x-clerk-session-id" = Some sessionId ->
      truthy (Some sessionId) = true ->
      Clerk.sessions_getSession backend sessionId w = (Fulfilled (Some s), w1) ->
      Clerk.users_getUser backend (Clerk.userId s) w1 = (Rejected e, w2) ->
      Clerk.getSession backend request w = (Rejected e, w2)
      /\ Clerk.requireSession backend request w = (Rejected e, w2))
  /\ (forall (backend : Clerk.Backend W) k e w w',
      Headers_get (headers request) "x-api-key" = Some k ->
      truthy (Some k) = true ->
      Clerk.apiKeys_findFirst backend k w = (Rejected e, w') ->
      Clerk.validateApiKey backend request w = (Rejected e, w')
      /\ Clerk.requireApiKey backend request permission w = (Rejected e, w')).
Proof.
  split; [| split; [| split; [| split; [| split; [| split]]]]].
  - intros auth Hs Hk.
    pose proof (BetterAuth_getSession_rejects_only _ auth request Hs) as Hg.
    pose proof (BetterAuth_validateApiKey_rejects_only _ auth request Hk) as Hv.
    repeat split; try assumption.
    + by apply requireSession_rejects_only.
    + by apply requireApiKey_rejects_only.
  - intros backend Hs Hu Hk.
    pose proof (Clerk_getSession_rejects_only _ backend request Hs Hu) as Hg.
    pose proof (Clerk_validateApiKey_rejects_only _ backend request Hk) as Hv.
    repeat split; try assumption.
    + by apply requireSession_rejects_only.
    + by apply requireApiKey_rejects_only.
  - intros auth e w w' H.
    assert (Hg : BetterAuth.getSession auth request w = (Rejected e, w'))
      by (by rewrite BetterAuth_getSession_run, H).
    split; [exact Hg |].
    unfold BetterAuth.requireSession. by rewrite requireSession_run, Hg.
  - intros auth h e w w' Hh Ht H.
    assert (Hv : BetterAuth.validateApiKey auth request w = (Rejected e, w'))
      by (by rewrite (BetterAuth_validateApiKey_run _ _ h), H).
    split; [exact Hv |].
    unfold BetterAuth.requireApiKey. by rewrite requireApiKey_run, Hv.
  - intros backend sessionId e w w' Hh Ht H.
    assert (Hg : Clerk.getSession backend request w = (Rejected e, w'))
      by (by rewrite (Clerk_getSession_run _ _ sessionId), H).
    split; [exact Hg |].
    unfold Clerk.requireSession. by rewrite requireSession_run, Hg.
  - intros backend sessionId s e w w1 w2 Hh Ht Hs Hu.
    assert (Hg : Clerk.getSession backend request w = (Rejected e, w2))
      by (by rewrite (Clerk_getSession_run _ _ sessionId), Hs, Hu).
    split; [exact Hg |].
    unfold Clerk.requireSession. by rewrite requireSession_run, Hg.
  - intros backend k e w w' Hh Ht H.
    assert (Hv : Clerk.validateApiKey backend request w = (Rejected e, w'))
      by (by rewrite (Clerk_validateApiKey_run _ _ k), H).
    split; [exact Hv |].
    unfold Clerk.requireApiKey. by rewrite requireApiKey_run, Hv.
Qed.

Lemma only_provider_errors_cross_the_boundary_witness :
  let not_found := fun e => e = ProviderError "resource_not_found" in
  let request :=
    {| headers := {[ "x-api-key" := "abc123";
                     "x-clerk-session-id" := "sess_3" ]} |} in
  (rejects_only not_found (BetterAuth.getSession Fake.auth request)
   /\ rejects_only not_found (BetterAuth.validateApiKey Fake.auth request)
   /\ rejects_only (fun e => boundary_error e \/ not_found e)
        (BetterAuth.requireSession Fake.auth request)
   /\ rejects_only (fun e => boundary_error e \/ not_found e)
        (BetterAuth.requireApiKey Fake.auth request (Some write)))
  /\ (rejects_only not_found (Clerk.getSession Fake.backend request)
      /\ rejects_only not_found (Clerk.validateApiKey Fake.backend request)
      /\ rejects_only (fun e => boundary_error e \/ not_found e)
           (Clerk.requireSession Fake.backend request)
      /\ rejects_only (fun e => boundary_error e \/ not_found e)
           (Clerk.requireApiKey Fake.backend request (Some write)))
  /\ (BetterAuth.getSession Fake.offline request 0%nat
      = (Rejected (ProviderError "fetch failed"), 0%nat)
      /\ BetterAuth.requireSession Fake.offline request 0%nat
         = (Rejected (ProviderError "fetch failed"), 0%nat))
  /\ (BetterAuth.validateApiKey Fake.offline request 0%nat
      = (Rejected (ProviderError "fetch failed"), 0%nat)
      /\ BetterAuth.requireApiKey Fake.offline request (Some write) 0%nat
         = (Rejected (ProviderError "fetch failed"), 0%nat))
  /\ (Clerk.getSession Sample.clerk_down request 0%nat
      = (Rejected (ProviderError "fetch failed"), 0%nat)
      /\ Clerk.requireSession Sample.clerk_down request 0%nat
         = (Rejected (ProviderError "fetch failed"), 0%nat))
  /\ (Clerk.getSession Sample.clerk request 0%nat
      = (Rejected (ProviderError "resource_not_found"), 2%nat)
      /\ Clerk.requireSession Sample.clerk request 0%nat
         = (Rejected (ProviderError "resource_not_found"), 2%nat))
  /\ (Clerk.validateApiKey Sample.clerk_down request 0%nat
      = (Rejected (ProviderError "ECONNREFUSED"), 0%nat)
      /\ Clerk.requireApiKey Sample.clerk_down request (Some write) 0%nat
         = (Rejected (ProviderError "ECONNREFUSED"), 0%nat)).
Proof.
  intros not_found request.
  destruct (only_provider_errors_cross_the_boundary (W:=nat)
              not_found request (Some write))
    as (Hbetter & Hclerk & Hsession & Hverify & Hclerk_session
        & Hclerk_user & Hkeys).
  split; [| split; [| split; [| split; [| split; [| split]]]]].
  - apply Hbetter.
    + intros h w. simpl. case_bool_decide; exact I.
    + intros k w. exact I.
  - apply Hclerk.
    + intros sid w. simpl. case_bool_decide; exact I.
    + intros uid w. simpl. case_bool_decide; [exact I | reflexivity].
    + intros k w. exact I.
  - apply (Hsession Fake.offline). reflexivity.
  - apply (Hverify Fake.offline "abc123"); reflexivity.
  - apply (Hclerk_session Sample.clerk_down "sess_3"); reflexivity.
  - apply (Hclerk_user Sample.clerk "sess_3"
             {| Clerk.session_id := "sess_3"; Clerk.userId := "user_gone";
                Clerk.expireAt := 1767225600000 |} _ 0%nat 1%nat 2%nat);
      reflexivity.
  - apply (Hkeys Sample.clerk_down "abc123"); reflexivity.
Defined.

(** ** The shape of what is returned *)
Lemma SessionAuth_shape_type (a : SessionAuth.t) :
  SessionAuth.type a = "session" -> SessionAuth_shape "type" a.
Proof.
  intros Htype. unfold SessionAuth_shape, SessionAuth.to_js.
  eexists _, _, _. split; [reflexivity |]. rewrite Htype.
  repeat split; reflexivity.
Qed.

Lemma ApiKeyAuth_shape_type (a : ApiKeyAuth.t) :
  ApiKeyAuth.type a = "api_key" -> ApiKeyAuth_shape "type" a.
Proof.
  intros Htype. unfold ApiKeyAuth_shape, ApiKeyAuth.to_js.
  eexists. split; [reflexivity |]. rewrite Htype.
  destruct (ApiKeyAuth.lastUsedAt a) as [d|];
    (split; [reflexivity |]); rewrite !dom_insert_L, dom_singleton_L;
    split; apply (bool_decide_unpack _); reflexivity.
Qed.

Section Returned.
Context {W : Type}.

Lemma requireSession_Fulfilled
    (this_getSession : Request -> Async W (option SessionAuth.t))
    request w a w' :
  This.requireSession this_getSession request w = (Fulfilled a, w') ->
  this_getSession request w = (Fulfilled (Some a), w').
Proof.
  rewrite requireSession_run.
  destruct (this_getSession request w) as [[[s|]|e] w1]; congruence.
Qed.

Lemma requireApiKey_Fulfilled
    (this_validateApiKey : Request -> Async W (option ApiKeyAuth.t))
    request permission w a w' :
  This.requireApiKey this_validateApiKey request permission w
  = (Fulfilled a, w') ->
  this_validateApiKey request w = (Fulfilled (Some a), w').
Proof.
  rewrite requireApiKey_run.
  destruct (this_validateApiKey request w) as [[[k|]|e] w1]; try congruence.
  destruct permission as [p|]; [| congruence].
  destruct (includes _ p); congruence.
Qed.

Lemma BetterAuth_getSession_Some (auth : BetterAuth.Auth W) request w a w' :
  BetterAuth.getSession auth request w = (Fulfilled (Some a), w') ->
  exists s, a = BetterAuth_SessionAuth s.
Proof.
  rewrite BetterAuth_getSession_run.
  destruct (BetterAuth.api_getSession auth (headers request) w)
    as [[[s|]|e] w1]; intros [=]. by exists s.
Qed.

Lemma Clerk_getSession_Some (backend : Clerk.Backend W) request w a w' :
  Clerk.getSession backend request w = (Fulfilled (Some a), w') ->
  exists s u, a = Clerk_SessionAuth s u.
Proof.
  destruct (truthy (Headers_get (headers request) "x-clerk-session-id"))
    eqn:Ht.
  - destruct (Headers_get (headers request) "x-clerk-session-id")
      as [sid|] eqn:Hh; [| discriminate Ht].
    rewrite (Clerk_getSession_run _ _ sid) by done.
    destruct (Clerk.sessions_getSession backend sid w)
      as [[[s|]|e] w1]; try discriminate.
    destruct (Clerk.users_getUser backend (Clerk.userId s) w1)
      as [[u|e] w2]; intros [=]. by exists s, u.
  - by rewrite Clerk_getSession_no_header.
Qed.

Lemma Clerk_validateApiKey_Some (backend : Clerk.Backend W) request w a w' :
  Clerk.validateApiKey backend request w = (Fulfilled (Some a), w') ->
  exists row, a = Clerk_ApiKeyAuth row.
Proof.
  destruct (truthy (Headers_get (headers request) "x-api-key")) eqn:Ht.
  - destruct (Headers_get (headers request) "x-api-key")
      as [k|] eqn:Hh; [| discriminate Ht].
    rewrite (Clerk_validateApiKey_run _ _ k) by done.
    destruct (Clerk.apiKeys_findFirst backend k w)
      as [[[row|]|e] w1]; intros [=]. by exists row.
  - by rewrite Clerk_validateApiKey_no_header.
Qed.
End Returned.

(** C6 as stated fails: the [SessionAuth] that [getSession] returns has no
    property [kind]; its discriminant is the property [type]. *)
Lemma returned_SessionAuth_has_no_kind :
  let a := BetterAuth_SessionAuth Fake.alice in
  BetterAuth.getSession Fake.auth
    (Fake.with_header "cookie" "session_token=tok1") 0%nat
  = (Fulfilled (Some a), 0%nat)
  /\ js_prop (SessionAuth.to_js a) "kind" = None
  /\ js_prop (SessionAuth.to_js a) "type" = Some (JString "session")
  /\ ~ SessionAuth_shape "kind" a.
Proof.
  intros a. repeat split.
  intros (props & user & session & Hjs & _ & Hkind & _).
  injection Hjs as <-. discriminate Hkind.
Qed.

(** C6, amended: every [SessionAuth] returned by [getSession] or
    [requireSession] carries the discriminant property [type] with value
    "session" and has the shape [{ type, user: {id, email, name, image},
    session: {id, expiresAt} }]; every [ApiKeyAuth] returned by
    [validateApiKey] or [requireApiKey] carries [type] with value
    "api_key" and has the shape [{ type, keyId, name, permissions }],
    [lastUsedAt] being left out. *)
Theorem returned_values_are_tagged_by_type {W}
    (request : Request) (permission : option Permission) (w w' : W) :
  (forall (auth : BetterAuth.Auth W),
      (forall a,
          BetterAuth.getSession auth request w = (Fulfilled (Some a), w')
          \/ BetterAuth.requireSession auth request w = (Fulfilled a, w') ->
          SessionAuth.type a = "session" /\ SessionAuth_shape "type" a)
      /\ (forall a,
          BetterAuth.validateApiKey auth request w = (Fulfilled (Some a), w')
          \/ BetterAuth.requireApiKey auth request permission w
             = (Fulfilled a, w') ->
          ApiKeyAuth.type a = "api_key" /\ ApiKeyAuth_shape "type" a
          /\ ApiKeyAuth.lastUsedAt a = None))
  /\ (forall (backend : Clerk.Backend W),
      (forall a,
          Clerk.getSession backend request w = (Fulfilled (Some a), w')
          \/ Clerk.requireSession backend request w = (Fulfilled a, w') ->
          SessionAuth.type a = "session" /\ SessionAuth_shape "type" a)
      /\ (forall a,
          Clerk.validateApiKey backend request w = (Fulfilled (Some a), w')
          \/ Clerk.requireApiKey backend request permission w
             = (Fulfilled a, w') ->
          ApiKeyAuth.type a = "api_key" /\ ApiKeyAuth_shape "type" a
          /\ ApiKeyAuth.lastUsedAt a = None)).
Proof.
  split.
  - intros auth. split.
    + intros a H.
      assert (Hg : BetterAuth.getSession auth request w
                   = (Fulfilled (Some a), w'))
        by (destruct H as [H | H]; [exact H | by apply requireSession_Fulfilled]).
      destruct (BetterAuth_getSession_Some _ _ _ _ _ Hg) as (s & ->).
      split; [reflexivity | by apply SessionAuth_shape_type].
    + intros a H.
      assert (Hv : BetterAuth.validateApiKey auth request w
                   = (Fulfilled (Some a), w')).
      { destruct H as [H | H]; [exact H |].
        by apply requireApiKey_Fulfilled in H. }
      destruct (BetterAuth_validateApiKey_Some _ _ _ _ _ Hv)
        as (h & key & _ & _ & ->).
      split; [reflexivity | split; [by apply ApiKeyAuth_shape_type | reflexivity]].
  - intros backend. split.
    + intros a H.
      assert (Hg : Clerk.getSession backend request w
                   = (Fulfilled (Some a), w'))
        by (destruct H as [H | H]; [exact H | by apply requireSession_Fulfilled]).
      destruct (Clerk_getSession_Some _ _ _ _ _ Hg) as (s & u & ->).
      split; [reflexivity | by apply SessionAuth_shape_type].
    + intros a H.
      assert (Hv : Clerk.validateApiKey backend request w
                   = (Fulfilled (Some a), w')).
      { destruct H as [H | H]; [exact H |].
        by apply requireApiKey_Fulfilled in H. }
      destruct (Clerk_validateApiKey_Some _ _ _ _ _ Hv) as (row & ->).
      split; [reflexivity | split; [by apply ApiKeyAuth_shape_type | reflexivity]].
Qed.

Lemma returned_values_are_tagged_by_type_witness :
  (let a := BetterAuth_SessionAuth Fake.alice in
   SessionAuth.type a = "session" /\ SessionAuth_shape "type" a)
  /\ (let a := Clerk_ApiKeyAuth
                 {| Clerk.id := "k1"; Clerk.key := "abc123"; Clerk.name := "ci";
                    Clerk.permissions := [read] |} in
      ApiKeyAuth.type a = "api_key" /\ ApiKeyAuth_shape "type" a
      /\ ApiKeyAuth.lastUsedAt a = None).
Proof.
  split.
  - destruct (returned_values_are_tagged_by_type
                (Fake.with_header "cookie" "session_token=tok1") None
                0%nat 0%nat) as (Hbetter & _).
    destruct (Hbetter Fake.auth) as (Hsession & _).
    apply Hsession. left. reflexivity.
  - destruct (returned_values_are_tagged_by_type
                (Fake.with_header "x-api-key" "abc123") (Some read)
                0%nat 0%nat) as (_ & Hclerk).
    destruct (Hclerk Fake.backend) as (_ & Hkey).
    apply Hkey. right. reflexivity.
Defined.


(** * Further properties of the listings *)

(** ** Credential headers that are there but empty *)

(** X1: a request whose [x-api-key] header is missing or empty is answered
    absent by [validateApiKey] of either adapter without a call to the
    provider or the key store (the world is left as it was, whatever the
    provider would have done), and [requireApiKey] fails with
    Unauthorized; the same holds for the Clerk adapter's [getSession] and
    [requireSession] and the [x-clerk-session-id] header. *)
Theorem empty_credential_header_is_no_credential {W}
    (request : Request) (permission : option Permission) (w : W) :
  (truthy (Headers_get (headers request) "x-api-key") = false ->
   (forall auth : BetterAuth.Auth W,
       BetterAuth.validateApiKey auth request w = (Fulfilled None, w)
       /\ BetterAuth.requireApiKey auth request permission w
          = (Rejected Unauthorized, w))
   /\ (forall backend : Clerk.Backend W,
       Clerk.validateApiKey backend request w = (Fulfilled None, w)
       /\ Clerk.requireApiKey backend request permission w
          = (Rejected Unauthorized, w)))
  /\ (truthy (Headers_get (headers request) "x-clerk-session-id") = false ->
      forall backend : Clerk.Backend W,
        Clerk.getSession backend request w = (Fulfilled None, w)
        /\ Clerk.requireSession backend request w
           = (Rejected Unauthorized, w)).
Proof.
  split.
  - intros Hempty. split.
    + intros auth.
      pose proof (BetterAuth_validateApiKey_no_header auth request w Hempty) as Hv.
      split; [exact Hv |].
      unfold BetterAuth.requireApiKey. by rewrite requireApiKey_run, Hv.
    + intros backend.
      pose proof (Clerk_validateApiKey_no_header backend request w Hempty) as Hv.
      split; [exact Hv |].
      unfold Clerk.requireApiKey. by rewrite requireApiKey_run, Hv.
  - intros Hempty backend.
    pose proof (Clerk_getSession_no_header backend request w Hempty) as Hg.
    split; [exact Hg |].
    unfold Clerk.requireSession. by rewrite requireSession_run, Hg.
Qed.

Lemma empty_credential_header_is_no_credential_witness :
  let request :=
    {| headers := {[ "x-api-key" := ""; "x-clerk-session-id" := "" ]} |} in
  BetterAuth.validateApiKey Fake.offline request 7%nat = (Fulfilled None, 7%nat)
  /\ Clerk.requireApiKey Sample.clerk request (Some read) 7%nat
     = (Rejected Unauthorized, 7%nat)
  /\ Clerk.getSession Sample.clerk request 7%nat = (Fulfilled None, 7%nat).
Proof.
  intros request.
  destruct (empty_credential_header_is_no_credential request (Some read) 7%nat)
    as (Hkey & Hsession).
  destruct Hkey as (Hbetter & Hclerk); [reflexivity |].
  split; [apply Hbetter | split; [apply Hclerk |]].
  apply Hsession. reflexivity.
Defined.

(** ** Names and permissions of validated keys *)

(** X2: every [ApiKeyAuth] the Better Auth adapter returns carries the id
    of the verified key and a non-empty name: the stored name of the key
    when there is one and it is not empty, and "Unnamed Key" when the
    stored name is missing or empty. *)
Theorem BetterAuth_key_name_never_empty {W}
    (auth : BetterAuth.Auth W) (request : Request) (w w' : W)
    (apiKey : ApiKeyAuth.t) :
  BetterAuth.validateApiKey auth request w = (Fulfilled (Some apiKey), w') ->
  ApiKeyAuth.name apiKey <> ""
  /\ exists h key,
      Headers_get (headers request) "x-api-key" = Some h
      /\ BetterAuth.api_verifyApiKey auth h w
         = (Fulfilled (BetterAuth.Verified key), w')
      /\ ApiKeyAuth.keyId apiKey = BetterAuth.apikey_id key
      /\ (forall stored,
          BetterAuth.apikey_name key = Some stored ->
          stored <> "" ->
          ApiKeyAuth.name apiKey = stored)
      /\ (BetterAuth.apikey_name key = None
          \/ BetterAuth.apikey_name key = Some "" ->
          ApiKeyAuth.name apiKey = "Unnamed Key").
Proof.
  intros Hv.
  destruct (BetterAuth_validateApiKey_Some _ _ _ _ _ Hv)
    as (h & key & Hh & Hverify & ->).
  simpl. unfold BetterAuth.name_or_unnamed, truthy.
  split.
  - destruct (BetterAuth.apikey_name key) as [s|]; [| done].
    by case_bool_decide.
  - exists h, key. split; [exact Hh |]. split; [exact Hverify |].
    split; [reflexivity |]. split.
    + intros stored -> Hne. by rewrite bool_decide_eq_false_2.
    + intros [-> | ->]; reflexivity.
Qed.

Lemma BetterAuth_key_name_never_empty_witness :
  exists apiKey,
    BetterAuth.validateApiKey Fake.auth
      (Fake.with_header "x-api-key" "abc123") 0%nat
    = (Fulfilled (Some apiKey), 1%nat)
    /\ ApiKeyAuth.name apiKey <> ""
    /\ ApiKeyAuth.name apiKey = "ci".
Proof.
  exists (BetterAuth_ApiKeyAuth Fake.k1).
  split; [vm_compute; reflexivity |].
  destruct (BetterAuth_key_name_never_empty Fake.auth
              (Fake.with_header "x-api-key" "abc123") 0%nat 1%nat
              (BetterAuth_ApiKeyAuth Fake.k1)) as (Hne & _);
    [vm_compute; reflexivity |].
  split; [exact Hne | reflexivity].
Defined.

(** X3: the Clerk adapter checks a required permission against the
    permissions stored with the key: for a key found in the key table,
    [requireApiKey(request, p)] returns the key when [p] is stored with it
    and fails with Forbidden when it is not; a key not in the table gives
    Unauthorized. *)
Theorem Clerk_requireApiKey_follows_stored_permissions {W}
    (backend : Clerk.Backend W) (request : Request) (apiKey : string)
    (p : Permission) (w w' : W) :
  Headers_get (headers request) "x-api-key" = Some apiKey ->
  truthy (Some apiKey) = true ->
  (forall row,
      Clerk.apiKeys_findFirst backend apiKey w = (Fulfilled (Some row), w') ->
      Clerk.requireApiKey backend request (Some p) w
      = if bool_decide (p ∈ Clerk.permissions row)
        then (Fulfilled (Clerk_ApiKeyAuth row), w')
        else (Rejected Forbidden, w'))
  /\ (Clerk.apiKeys_findFirst backend apiKey w = (Fulfilled None, w') ->
      Clerk.requireApiKey backend request (Some p) w
      = (Rejected Unauthorized, w')).
Proof.
  intros Hh Ht. unfold Clerk.requireApiKey. split.
  - intros row Hrow.
    rewrite requireApiKey_run, (Clerk_validateApiKey_run _ _ apiKey), Hrow by done.
    reflexivity.
  - intros Hnone.
    by rewrite requireApiKey_run, (Clerk_validateApiKey_run _ _ apiKey), Hnone.
Qed.

Lemma Clerk_requireApiKey_follows_stored_permissions_witness :
  let request := Fake.with_header "x-api-key" "abc123" in
  Clerk.requireApiKey Sample.clerk request (Some write) 0%nat
  = (Rejected Forbidden, 1%nat)
  /\ Clerk.requireApiKey Sample.clerk
       (Fake.with_header "x-api-key" "unknown") (Some read) 0%nat
     = (Rejected Unauthorized, 1%nat).
Proof.
  intros request. split.
  - destruct (Clerk_requireApiKey_follows_stored_permissions Sample.clerk
                request "abc123" write 0%nat 1%nat) as (H & _);
      [reflexivity | reflexivity |].
    rewrite (H {| Clerk.id := "k1"; Clerk.key := "abc123"; Clerk.name := "ci";
                  Clerk.permissions := [read] |}) by reflexivity.
    reflexivity.
  - destruct (Clerk_requireApiKey_follows_stored_permissions Sample.clerk
                (Fake.with_header "x-api-key" "unknown") "unknown" read
                0%nat 1%nat) as (_ & H);
      [reflexivity | reflexivity |].
    apply H. reflexivity.
Defined.

(** X4: asking [requireApiKey] for a permission can only turn a success
    into Forbidden, and does so exactly when the key lacks the permission:
    when the call without a permission returns a key, the call with
    permission [p] returns the same key from the same state if [p] is
    among the key's permissions and fails with Forbidden if it is not; when
    the call without a permission rejects, the call with one rejects with
    the same error. *)
Theorem requireApiKey_permission_only_forbids {W}
    (this_validateApiKey : Request -> Async W (option ApiKeyAuth.t))
    (request : Request) (p : Permission) (w : W) :
  (forall apiKey w',
      This.requireApiKey this_validateApiKey request None w
      = (Fulfilled apiKey, w') ->
      (p ∈ ApiKeyAuth.permissions apiKey ->
       This.requireApiKey this_validateApiKey request (Some p) w
       = (Fulfilled apiKey, w'))
      /\ (p ∉ ApiKeyAuth.permissions apiKey ->
          This.requireApiKey this_validateApiKey request (Some p) w
          = (Rejected Forbidden, w')))
  /\ (forall e w',
      This.requireApiKey this_validateApiKey request None w
      = (Rejected e, w') ->
      This.requireApiKey this_validateApiKey request (Some p) w
      = (Rejected e, w')).
Proof.
  rewrite !requireApiKey_run.
  destruct (this_validateApiKey request w) as [[[k|]|e0] w0]; split.
  - intros apiKey w' [= <- <-]. unfold includes. split; intros Hp.
    + by rewrite bool_decide_eq_true_2.
    + by rewrite bool_decide_eq_false_2.
  - intros e w' [=].
  - intros apiKey w' [=].
  - intros e w' H. exact H.
  - intros apiKey w' [=].
  - intros e w' H. exact H.
Qed.

Lemma requireApiKey_permission_only_forbids_witness :
  let validate := Clerk.validateApiKey Fake.backend in
  let abc123 := Fake.with_header "x-api-key" "abc123" in
  This.requireApiKey validate abc123 (Some write) 0%nat
  = (Rejected Forbidden, 0%nat)
  /\ (exists apiKey,
        This.requireApiKey validate abc123 (Some read) 0%nat
        = (Fulfilled apiKey, 0%nat))
  /\ This.requireApiKey validate Fake.bare (Some read) 0%nat
     = (Rejected Unauthorized, 0%nat).
Proof.
  intros validate abc123.
  pose (k1 := Clerk_ApiKeyAuth
                {| Clerk.id := "k1"; Clerk.key := "abc123"; Clerk.name := "ci";
                   Clerk.permissions := [read] |}).
  split; [| split].
  - destruct (requireApiKey_permission_only_forbids validate abc123 write 0%nat)
      as (H & _).
    destruct (H k1 0%nat) as (_ & Hforbid); [reflexivity |].
    apply Hforbid. simpl. rewrite list_elem_of_singleton. discriminate.
  - destruct (requireApiKey_permission_only_forbids validate abc123 read 0%nat)
      as (H & _).
    destruct (H k1 0%nat) as (Hgrant & _); [reflexivity |].
    exists k1. apply Hgrant. simpl. apply list_elem_of_here.
  - destruct (requireApiKey_permission_only_forbids validate Fake.bare read 0%nat)
      as (_ & H).
    apply H. reflexivity.
Defined.

(** ** The two calls of the Clerk adapter's [getSession] *)

(** X5: when Clerk knows the session but the lookup of its user fails,
    [getSession] rejects with that failure instead of returning absent,
    and so does [requireSession]; the world is as the two calls left it. *)
Theorem Clerk_getSession_user_lookup_failure {W}
    (backend : Clerk.Backend W) (request : Request) (sessionId : string)
    (s : Clerk.session_t) (e : exn) (w w1 w2 : W) :
  Headers_get (headers request) "x-clerk-session-id" = Some sessionId ->
  truthy (Some sessionId) = true ->
  Clerk.sessions_getSession backend sessionId w = (Fulfilled (Some s), w1) ->
  Clerk.users_getUser backend (Clerk.userId s) w1 = (Rejected e, w2) ->
  Clerk.getSession backend request w = (Rejected e, w2)
  /\ Clerk.requireSession backend request w = (Rejected e, w2).
Proof.
  intros Hh Ht Hs Hu.
  assert (Hg : Clerk.getSession backend request w = (Rejected e, w2))
    by (by rewrite (Clerk_getSession_run _ _ sessionId), Hs, Hu).
  split; [exact Hg |].
  unfold Clerk.requireSession. by rewrite requireSession_run, Hg.
Qed.

Lemma Clerk_getSession_user_lookup_failure_witness :
  let request := Fake.with_header "x-clerk-session-id" "sess_3" in
  Clerk.getSession Sample.clerk request 0%nat
  = (Rejected (ProviderError "resource_not_found"), 2%nat)
  /\ Clerk.requireSession Sample.clerk request 0%nat
     = (Rejected (ProviderError "resource_not_found"), 2%nat).
Proof.
  intros request.
  eapply (Clerk_getSession_user_lookup_failure Sample.clerk request "sess_3");
    reflexivity.
Defined.

(** X6: a Clerk user without first name, last name and email address
    still gets a [SessionAuth]: its name is "null null", its email the
    empty string, and its id and session id are Clerk's. *)
Theorem Clerk_getSession_nameless_user {W}
    (backend : Clerk.Backend W) (request : Request) (sessionId : string)
    (s : Clerk.session_t) (u : Clerk.user_t) (w w1 w2 : W) :
  Headers_get (headers request) "x-clerk-session-id" = Some sessionId ->
  truthy (Some sessionId) = true ->
  Clerk.sessions_getSession backend sessionId w = (Fulfilled (Some s), w1) ->
  Clerk.users_getUser backend (Clerk.userId s) w1 = (Fulfilled u, w2) ->
  Clerk.firstName u = None ->
  Clerk.lastName u = None ->
  Clerk.emailAddresses u = [] ->
  exists a,
    Clerk.getSession backend request w = (Fulfilled (Some a), w2)
    /\ SessionAuth.user_name (SessionAuth.user a) = Some "null null"
    /\ SessionAuth.user_email (SessionAuth.user a) = ""
    /\ SessionAuth.user_id (SessionAuth.user a) = Clerk.user_id u
    /\ SessionAuth.session_id (SessionAuth.session a) = Clerk.session_id s.
Proof.
  intros Hh Ht Hs Hu Hfirst Hlast Hmail.
  exists (Clerk_SessionAuth s u). split.
  - by rewrite (Clerk_getSession_run _ _ sessionId), Hs, Hu.
  - simpl. by rewrite Hfirst, Hlast, Hmail.
Qed.

Lemma Clerk_getSession_nameless_user_witness :
  exists a,
    Clerk.getSession Sample.clerk
      (Fake.with_header "x-clerk-session-id" "sess_2") 0%nat
    = (Fulfilled (Some a), 2%nat)
    /\ SessionAuth.user_name (SessionAuth.user a) = Some "null null"
    /\ SessionAuth.user_email (SessionAuth.user a) = ""
    /\ SessionAuth.user_id (SessionAuth.user a) = "user_2"
    /\ SessionAuth.session_id (SessionAuth.session a) = "sess_2".
Proof.
  apply (Clerk_getSession_nameless_user Sample.clerk
           (Fake.with_header "x-clerk-session-id" "sess_2") "sess_2"
           {| Clerk.session_id := "sess_2"; Clerk.userId := "user_2";
              Clerk.expireAt := 1767225600000 |}
           Sample.nameless 0%nat 1%nat 2%nat); reflexivity.
Defined.

(** ** The sign-up hook and the profile table *)

Lemma insert_userProfiles_run values db :
  Db.insert_userProfiles values db =
  if bool_decide (Db.userId values ∈ Db.userId <$> Db.cms_user_profiles db)
  then (Rejected (ProviderError "unique_violation"),
        {| Db.cms_user_profiles := Db.cms_user_profiles db;
           Db.journal := (Db.journal db ++ [Db.Insert_userProfiles values])%list |})
  else (Fulfilled tt,
        {| Db.cms_user_profiles := (Db.cms_user_profiles db ++ [values])%list;
           Db.journal := (Db.journal db ++ [Db.Insert_userProfiles values])%list |}).
Proof. reflexivity. Qed.

(** What the hook does, in one equation: nothing, or the one INSERT. *)
Lemma hooks_after_run ctx db :
  BetterAuth.hooks_after ctx db = (Fulfilled tt, db)
  \/ exists u,
      BetterAuth.path ctx = "/sign-up/email"
      /\ BetterAuth.context_user ctx = Some u
      /\ BetterAuth.hooks_after ctx db
         = Db.insert_userProfiles
             {| Db.userId := BetterAuth.user_id u;
                Db.role := Some Db.editor;
                Db.preferences := None |} db.
Proof.
  unfold BetterAuth.hooks_after.
  case_bool_decide as Hpath; [| by left].
  destruct (BetterAuth.context_user ctx) as [u|]; [| by left].
  right. by exists u.
Qed.

(** X7: on every path other than [/sign-up/email], and whenever the
    context holds no user, the hook hands the database no statement and
    leaves it as it was. *)
Theorem hook_is_silent_off_signup (ctx : BetterAuth.hook_ctx) (db : Db.t) :
  BetterAuth.path ctx <> "/sign-up/email" \/ BetterAuth.context_user ctx = None ->
  BetterAuth.hooks_after ctx db = (Fulfilled tt, db)
  /\ Db.issued (BetterAuth.hooks_after ctx) db = [].
Proof.
  intros H. pose proof (hooks_after_elsewhere ctx db H) as Hrun.
  split; [exact Hrun |].
  unfold Db.issued. rewrite Hrun. simpl. apply drop_all.
Qed.

Lemma hook_is_silent_off_signup_witness :
  let ctx := {| BetterAuth.path := "/sign-in/email";
                BetterAuth.context_user := Some (BetterAuth.user Fake.alice) |} in
  BetterAuth.hooks_after ctx Sample.empty_db = (Fulfilled tt, Sample.empty_db)
  /\ Db.issued (BetterAuth.hooks_after ctx) Sample.empty_db = [].
Proof.
  intros ctx. apply hook_is_silent_off_signup. left. discriminate.
Defined.

(** X8: whatever the context, the hook keeps every stored profile as it
    is and in place, adds at most one row, and a row it adds has the role
    editor and no preferences: it never makes an admin. *)
Theorem hook_adds_at_most_one_editor (ctx : BetterAuth.hook_ctx) (db : Db.t) :
  exists added,
    Db.cms_user_profiles (snd (BetterAuth.hooks_after ctx db))
    = (Db.cms_user_profiles db ++ added)%list
    /\ (length added <= 1)%nat
    /\ Forall (fun row => Db.role row = Some Db.editor
                          /\ Db.preferences row = None) added.
Proof.
  assert (Hnone : forall rows : list Db.userProfiles_row,
             rows = (rows ++ [])%list /\ (length (A:=Db.userProfiles_row) [] <= 1)%nat
             /\ Forall (fun row => Db.role row = Some Db.editor
                                   /\ Db.preferences row = None) []).
  { intros rows. rewrite app_nil_r. split; [done |]. split; [simpl; lia |].
    constructor. }
  destruct (hooks_after_run ctx db) as [-> | (u & _ & _ & ->)].
  - exists []. apply Hnone.
  - rewrite insert_userProfiles_run. case_bool_decide; simpl.
    + exists []. apply Hnone.
    + eexists [_]. split; [reflexivity |]. split; [simpl; lia |].
      by apply Forall_singleton.
Qed.

(** X9: the hook keeps the user ids of the profile table free of
    duplicates. *)
Theorem hook_keeps_user_ids_unique (ctx : BetterAuth.hook_ctx) (db : Db.t) :
  NoDup (Db.userId <$> Db.cms_user_profiles db) ->
  NoDup (Db.userId <$>
           Db.cms_user_profiles (snd (BetterAuth.hooks_after ctx db))).
Proof.
  intros Hnodup.
  destruct (hooks_after_run ctx db) as [-> | (u & _ & _ & ->)]; [done |].
  rewrite insert_userProfiles_run. case_bool_decide as Hin; simpl; [done |].
  rewrite fmap_app. apply NoDup_app. split; [done |]. split.
  - intros x Hx Hx'. apply list_elem_of_singleton in Hx'. by subst.
  - apply NoDup_singleton.
Qed.

Lemma hook_keeps_user_ids_unique_witness :
  let ctx := {| BetterAuth.path := "/sign-up/email";
                BetterAuth.context_user := Some (BetterAuth.user Fake.alice) |} in
  let db := {| Db.cms_user_profiles :=
                 [ {| Db.userId := "u1"; Db.role := Some Db.admin;
                      Db.preferences := None |} ];
               Db.journal := [] |} in
  NoDup (Db.userId <$>
           Db.cms_user_profiles (snd (BetterAuth.hooks_after ctx db))).
Proof.
  intros ctx db. apply hook_keeps_user_ids_unique.
  simpl. apply NoDup_singleton.
Defined.



(** ** The Clerk webhook *)






(** ** The API keys of the auth service *)
Section ApiKeyTable.
Implicit Types (table : list AuthService.apikey_row) (row : AuthService.apikey_row).

Lemma deleteApiKey_table userId keyId table row :
  row ∈ snd (AuthService.deleteApiKey userId keyId table)
  <-> row ∈ table
      /\ ~ (AuthService.id row = keyId /\ AuthService.userId row = Some userId).
Proof.
  unfold AuthService.deleteApiKey. simpl.
  rewrite !list_elem_of_In, filter_In, negb_true_iff, andb_false_iff.
  unfold AuthService.eq_id, AuthService.eq_userId.
  rewrite !bool_decide_eq_false.
  destruct (decide (AuthService.id row = keyId)); tauto.
Qed.

Lemma filter_owner_after_delete other userId keyId table :
  other <> userId ->
  List.filter (AuthService.eq_userId other)
    (snd (AuthService.deleteApiKey userId keyId table))
  = List.filter (AuthService.eq_userId other) table.
Proof.
  intros Hother. unfold AuthService.deleteApiKey. simpl.
  induction table as [| row table IH]; [reflexivity |]. simpl.
  destruct (AuthService.eq_userId other row) eqn:Howner.
  - assert (Hmine : AuthService.eq_userId userId row = false).
    { unfold AuthService.eq_userId in *.
      apply bool_decide_eq_true in Howner. apply bool_decide_eq_false.
      congruence. }
    rewrite Hmine, andb_false_r. simpl. by rewrite Howner, IH.
  - destruct (negb _); simpl; by rewrite ?Howner, IH.
Qed.
End ApiKeyTable.


(** X14: [deleteApiKey(userId, keyId)] removes nothing but keys with that
    id owned by that user: every other row stays, and what
    [listApiKeys] shows any other user is what it showed before. *)
Theorem deleteApiKey_spares_other_users
    (userId keyId other : string) (table : list AuthService.apikey_row) :
  (forall row,
      row ∈ table ->
      AuthService.id row <> keyId \/ AuthService.userId row <> Some userId ->
      row ∈ snd (AuthService.deleteApiKey userId keyId table))
  /\ (other <> userId ->
      fst (AuthService.listApiKeys other
             (snd (AuthService.deleteApiKey userId keyId table)))
      = fst (AuthService.listApiKeys other table)).
Proof.
  split.
  - intros row Hin Hother. apply deleteApiKey_table. split; [exact Hin |].
    intros (Hid & Howner). destruct Hother; contradiction.
  - intros Hother. unfold AuthService.listApiKeys. cbn [fst].
    by rewrite filter_owner_after_delete.
Qed.

Lemma deleteApiKey_spares_other_users_witness :
  Sample.key_of "k2" "u2"
    ∈ snd (AuthService.deleteApiKey "u1" "k2" Sample.apikey)
  /\ fst (AuthService.listApiKeys "u2"
            (snd (AuthService.deleteApiKey "u1" "k1" Sample.apikey)))
     = fst (AuthService.listApiKeys "u2" Sample.apikey).
Proof.
  destruct (deleteApiKey_spares_other_users "u1" "k2" "u2" Sample.apikey)
    as (Hstay & _).
  destruct (deleteApiKey_spares_other_users "u1" "k1" "u2" Sample.apikey)
    as (_ & Hlist).
  split.
  - apply Hstay.
    + apply list_elem_of_further, list_elem_of_here.
    + right. discriminate.
  - apply Hlist. discriminate.
Defined.




(** ** The client wrapper *)

(** X16: [signIn] and [signUp] report a failure only through the message
    of the client's error: the returned [error] is absent exactly when
    the client reported no error or an error without a message, so a
    failure without a message cannot be told from a success. *)
Theorem wrapper_reports_only_error_messages {W}
    (betterAuthClient : AuthClient.BetterAuthClient W)
    (email password : string) (w w' : W) (result : AuthClient.client_result) :
  let credentials := {| AuthClient.email := email;
                        AuthClient.password := password |} in
  let silent := AuthClient.error result = None
                \/ AuthClient.error result
                   = Some {| AuthClient.message := None |} in
  (AuthClient.signIn_email betterAuthClient credentials w
   = (Fulfilled result, w') ->
   exists outcome,
     AuthClient.signIn betterAuthClient email password w
     = (Fulfilled outcome, w')
     /\ (AuthClient.outcome_error outcome = None <-> silent))
  /\ (AuthClient.signUp_email betterAuthClient credentials w
      = (Fulfilled result, w') ->
      exists outcome,
        AuthClient.signUp betterAuthClient email password w
        = (Fulfilled outcome, w')
        /\ (AuthClient.outcome_error outcome = None <-> silent)).
Proof.
  intros credentials silent.
  assert (Hsilent : AuthClient.error_message result = None <-> silent).
  { unfold AuthClient.error_message, silent.
    destruct (AuthClient.error result) as [[[m|]]|]; simpl.
    - split; [discriminate | intros [H | H]; discriminate H].
    - split; [by right | done].
    - split; [by left | done]. }
  split; intros Hcall;
    exists {| AuthClient.outcome_error := AuthClient.error_message result |};
    (split; [| exact Hsilent]).
  - unfold AuthClient.signIn. by rewrite (await_fulfilled _ _ _ _ _ Hcall).
  - unfold AuthClient.signUp. by rewrite (await_fulfilled _ _ _ _ _ Hcall).
Qed.

Lemma wrapper_reports_only_error_messages_witness :
  AuthClient.signIn Sample.client "alice@example.org" "wrong" tt
  = (Fulfilled {| AuthClient.outcome_error := None |}, tt)
  /\ AuthClient.signUp Sample.client "alice@example.org" "secret" tt
     = (Fulfilled {| AuthClient.outcome_error := Some "User already exists" |}, tt).
Proof.
  split.
  - destruct (wrapper_reports_only_error_messages Sample.client
                "alice@example.org" "wrong" tt tt
                {| AuthClient.error := Some {| AuthClient.message := None |} |})
      as (Hin & _).
    destruct Hin as (outcome & Hrun & Hiff); [reflexivity |].
    rewrite Hrun. destruct outcome as [e]. simpl in Hiff.
    rewrite (proj2 Hiff); [reflexivity | by right].
  - reflexivity.
Defined.

(** ** The feature flag *)

(** X17: whichever adapter the flag selects, a request whose [x-api-key]
    header is missing or empty is refused by [requireApiKey] with
    Unauthorized, without a call to the provider. *)
Theorem any_flag_refuses_missing_key {W}
    (env : gmap string string)
    (backend : Clerk.Backend W) (auth : BetterAuth.Auth W)
    (request : Request) (permission : option Permission) (w : W) :
  truthy (Headers_get (headers request) "x-api-key") = false ->
  let provider := Config.auth_provider env (Clerk.authProvider backend)
                    (BetterAuth.authProvider auth) in
  AuthProvider_validateApiKey W provider request w = (Fulfilled None, w)
  /\ AuthProvider_requireApiKey W provider request permission w
     = (Rejected Unauthorized, w).
Proof.
  intros Hempty provider. unfold provider, Config.auth_provider.
  destruct (Config.USE_CLERK env); simpl.
  - pose proof (Clerk_validateApiKey_no_header backend request w Hempty) as Hv.
    by rewrite requireApiKey_run, Hv.
  - pose proof (BetterAuth_validateApiKey_no_header auth request w Hempty) as Hv.
    unfold BetterAuth.requireApiKey. by rewrite requireApiKey_run, Hv.
Qed.

Lemma any_flag_refuses_missing_key_witness :
  let provider := Config.auth_provider {[ "FEATURE_CLERK" := "true" ]}
                    (Clerk.authProvider Sample.clerk)
                    (BetterAuth.authProvider Fake.offline) in
  AuthProvider_validateApiKey nat provider Fake.bare 0%nat = (Fulfilled None, 0%nat)
  /\ AuthProvider_requireApiKey nat provider Fake.bare (Some write) 0%nat
     = (Rejected Unauthorized, 0%nat).
Proof.
  apply (any_flag_refuses_missing_key {[ "FEATURE_CLERK" := "true" ]}
           Sample.clerk Fake.offline Fake.bare (Some write) 0%nat).
  reflexivity.
Defined.

(** X18: Clerk is selected only by the exact value [true] of
    [FEATURE_CLERK]; with the flag unset or set to anything else the
    Better Auth adapter answers, so every key that validates comes back
    with both permissions and [requireApiKey] grants [write]. *)
Theorem flag_off_grants_every_key_write {W}
    (env : gmap string string)
    (clerkAuthProvider : AuthProvider W) (auth : BetterAuth.Auth W)
    (request : Request) (w w' : W) (apiKey : ApiKeyAuth.t) :
  env !! "FEATURE_CLERK" <> Some "true" ->
  let provider := Config.auth_provider env clerkAuthProvider
                    (BetterAuth.authProvider auth) in
  AuthProvider_validateApiKey W provider request w
  = (Fulfilled (Some apiKey), w') ->
  ApiKeyAuth.permissions apiKey = [read; write]
  /\ AuthProvider_requireApiKey W provider request (Some write) w
     = (Fulfilled apiKey, w').
Proof.
  intros Hflag provider. unfold provider, Config.auth_provider, Config.USE_CLERK.
  rewrite bool_decide_eq_false_2 by done. simpl. intros Hv.
  destruct (BetterAuth_validateApiKey_Some _ _ _ _ _ Hv)
    as (h & key & _ & _ & ->).
  split; [reflexivity |].
  unfold BetterAuth.requireApiKey. by rewrite requireApiKey_run, Hv.
Qed.

Lemma flag_off_grants_every_key_write_witness :
  let provider := Config.auth_provider {[ "FEATURE_CLERK" := "TRUE" ]}
                    (Clerk.authProvider Sample.clerk)
                    (BetterAuth.authProvider Fake.auth) in
  exists apiKey,
    ApiKeyAuth.permissions apiKey = [read; write]
    /\ AuthProvider_requireApiKey nat provider
         (Fake.with_header "x-api-key" "abc123") (Some write) 0%nat
       = (Fulfilled apiKey, 1%nat).
Proof.
  intros provider. exists (BetterAuth_ApiKeyAuth Fake.k1).
  apply (flag_off_grants_every_key_write {[ "FEATURE_CLERK" := "TRUE" ]}
           (Clerk.authProvider Sample.clerk) Fake.auth
           (Fake.with_header "x-api-key" "abc123") 0%nat 1%nat).
  - vm_compute. discriminate.
  - reflexivity.
Defined.
